(** * Order lifecycle, inventory ledger and invoice issuer

    A shallow embedding of the Express handlers of
    [server/routes/orders.js] and [server/routes/admin.js], together with
    the properties the specification states about them.

    Conventions of the embedding.
    - The Mongo collections are finite maps from document id to document
      ([gmap string _]); the invoice collection is a list in insertion
      order, because duplicates matter there.
    - A handler is a function from the database to a response and a new
      database.  [return res.status(..).json(..)] in the middle of a
      handler is an early exit; the [Handler] monad below threads the
      database and stops at the first response.
    - JavaScript numbers are integers ([Z]): stock counters, quantities and
      amounts in whole rupees.  Request fields that may be missing are
      [option]s; fields whose JavaScript type the code inspects are
      [jsval]s.
    - Identifiers are well-formed document ids, for which [findById]
      answers with the document or with [null]. *)

From stdpp Require Import gmap strings list fin_maps sorting.
From Stdlib Require Import ZArith Lia DecimalString.

Local Open Scope string_scope.
Local Open Scope Z_scope.

(** ** JavaScript values and coercions *)

Inductive jsval :=
| JUndefined
| JNull
| JBool (b : bool)
| JNum (n : Z)
| JStr (s : string).

(** [a || b] on possibly missing strings: the empty string is falsy. *)
Definition or_str (a b : option string) : option string :=
  match a with
  | Some s => if decide (s = "") then b else Some s
  | None => b
  end.

(** [a || ''] *)
Definition or_empty (a : option string) : string :=
  match or_str a None with Some s => s | None => "" end.

(** [x || d] on a possibly missing number: [0] and [undefined] are falsy. *)
Definition or_num (x : option Z) (d : Z) : Z :=
  match x with
  | Some n => if decide (n = 0) then d else n
  | None => d
  end.

(** [String(x)] of a possibly missing id. *)
Definition String_of (x : option string) : string :=
  match x with Some s => s | None => "undefined" end.

(** [l.includes(s)] *)
Fixpoint includes (l : list string) (s : string) : bool :=
  match l with
  | [] => false
  | x :: l' => if decide (x = s) then true else includes l' s
  end.

Definition is_digit (a : Ascii.ascii) : bool :=
  let n := Ascii.nat_of_ascii a in (48 <=? n)%nat && (n <=? 57)%nat.

Fixpoint all_digits (s : string) : bool :=
  match s with
  | EmptyString => true
  | String a s' => is_digit a && all_digits s'
  end.

(** [/^\d{4,8}$/.test(s)] *)
Definition pinOk (s : string) : bool :=
  (4 <=? String.length s)%nat && (String.length s <=? 8)%nat && all_digits s.

(** White space of [String.prototype.trim], over the code units modelled
    here. *)
Definition is_space (a : Ascii.ascii) : bool :=
  let n := Ascii.nat_of_ascii a in
  (n =? 32)%nat || ((9 <=? n)%nat && (n <=? 13)%nat) || (n =? 160)%nat.

Fixpoint trimStart (s : string) : string :=
  match s with
  | EmptyString => EmptyString
  | String a s' => if is_space a then trimStart s' else s
  end.

Fixpoint trimEnd (s : string) : string :=
  match s with
  | EmptyString => EmptyString
  | String a s' =>
      match trimEnd s' with
      | EmptyString => if is_space a then EmptyString else String a EmptyString
      | t => String a t
      end
  end.

Definition trim (s : string) : string := trimEnd (trimStart s).

(** ** Data model *)

Record SizeEntry := { code : string; sz_qty : Z }.

(** Modelled from the spec: the Product schema ([models/Product] is not
    among the sources).  Stock is a scalar counter or a list of per-size
    counters, the mode being selected per product. *)
Record Product := {
  p_title : string;
  trackInventoryBySize : bool;
  sizeInventory : option (list SizeEntry);
  stock : Z
}.

Record Item := {
  item_id : option string;
  item_productId : option string;
  item_title : option string;
  item_size : option string;
  item_price : option Z;
  item_qty : option Z
}.

Record Upi := { payerName : string; txnId : string }.

Record UpiBody := { ub_payerName : option string; ub_txnId : option string }.

(** Modelled from the spec: the Order schema ([models/Order] is not among
    the sources).  These are the fields the handlers write or read;
    [discount], [shipping] and [tax] are the financial fields the pages and
    the invoice renderer read from an order.  A field no handler has
    assigned is absent. *)
Record Order := {
  userId : option string;
  name : string;
  phone : string;
  address : string;
  paymentMethod : string;
  city : string;
  state : string;
  pincode : string;
  items : list Item;
  total : Z;
  status : string;
  upi : option Upi;
  discount : option Z;
  shipping : option Z;
  tax : option Z;
  cancellationReason : option string;
  returnReason : option string;
  returnStatus : option string;
  rejectionReason : option string;
  trackingNumber : option string;
  invoiceId : option string
}.

(** Modelled from the spec: the users the orders refer to, with the
    address the notifications go to. *)
Record User := { email : option string }.

(** [req.user], as left by the authentication middleware. *)
Record Actor := { actor_id : string; role : string }.

(** Modelled from the spec: the Invoice schema ([models/Invoice] is not
    among the sources), with the creation timestamp the issuer queries. *)
Record Invoice := {
  inv_id : string;
  inv_orderId : string;
  invoiceNo : string;
  issuedAt : Z;
  inv_status : string;
  createdAt : Z
}.

(** Mail handed to the email service. *)
Inductive Mail :=
| StatusUpdateEmail (orderId : string) (to : string) (newStatus : string)
| ReturnApprovalEmail (orderId : string) (to : string)
    (outcome : option string) (reason : option string).

Record Db := {
  products : gmap string Product;
  orders : gmap string Order;
  users : gmap string User;
  invoices : list Invoice;
  outbox : list Mail
}.

Definition with_products (ps : gmap string Product) (db : Db) : Db :=
  {| products := ps; orders := orders db; users := users db;
     invoices := invoices db; outbox := outbox db |}.

Definition with_orders (os : gmap string Order) (db : Db) : Db :=
  {| products := products db; orders := os; users := users db;
     invoices := invoices db; outbox := outbox db |}.

Definition with_invoices (l : list Invoice) (db : Db) : Db :=
  {| products := products db; orders := orders db; users := users db;
     invoices := l; outbox := outbox db |}.

Definition with_outbox (l : list Mail) (db : Db) : Db :=
  {| products := products db; orders := orders db; users := users db;
     invoices := invoices db; outbox := l |}.

(** ** Responses *)

Inductive Data :=
| DOrder (o : Order)
| DInvoice (invoiceId : string) (invoiceNumber : string).

Inductive Response :=
| Success (data : Data) (message : option string)
| Failure (httpStatus : Z) (message : string)
| OutOfStock (message : string) (itemId : string) (availableQty : Z).

(** ** The handler monad *)

Definition Handler (A : Type) : Type := Db → (Response + A) * Db.

Definition ret {A} (a : A) : Handler A := λ db, (inr a, db).

Definition reply {A} (r : Response) : Handler A := λ db, (inl r, db).

Definition bind {A B} (m : Handler A) (k : A → Handler B) : Handler B :=
  λ db, match m db with
        | (inl r, db') => (inl r, db')
        | (inr a, db') => k a db'
        end.

Definition get {A} (f : Db → A) : Handler A := λ db, (inr (f db), db).

Definition modify (f : Db → Db) : Handler unit := λ db, (inr tt, f db).

Notation "'let*' x ':=' m 'in' k" := (bind m (λ x, k))
  (at level 10, x name, m at level 99, k at level 200,
   format "'[v' 'let*'  x  ':='  m  'in' '/' k ']'").
Notation "m '>>' k" := (bind m (λ _, k))
  (at level 99, k at level 200, right associativity).

(** [if (c) return res...] *)
Definition reject_if (c : bool) (r : Response) : Handler unit :=
  if c then reply r else ret tt.

Fixpoint for_each {A} (f : A → Handler unit) (l : list A) : Handler unit :=
  match l with
  | [] => ret tt
  | x :: l' => f x >> for_each f l'
  end.

(** A handler ends in a response either way. *)
Definition run (m : Handler Response) (db : Db) : Response * Db :=
  match m db with
  | (inl r, db') => (r, db')
  | (inr r, db') => (r, db')
  end.

(** ** Order creation ([router.post('/')] of orders.js) *)

Definition ALLOWED_STATUSES : list string :=
  ["pending"; "paid"; "shipped"; "delivered"; "cancelled"].

Record Customer := {
  c_name : option string;
  c_phone : option string;
  c_address : option string;
  c_city : option string;
  c_state : option string;
  c_pincode : option string
}.

(** [req.body] of the create-order request: the fields the handler
    reads. *)
Record CreateBody := {
  b_name : option string;
  b_phone : option string;
  b_address : option string;
  b_city : option string;
  b_state : option string;
  b_pincode : option string;
  b_customer : option Customer;
  b_items : list Item;
  b_total : jsval;
  b_paymentMethod : option string;
  b_payment : option string;
  b_status : option string;
  b_upi : option UpiBody
}.

(** [body.f || body.customer?.f || ''] *)
Definition field (direct : option string) (c : option Customer)
    (f : Customer → option string) : string :=
  or_empty (or_str direct (c ≫= f)).

(** [items.reduce((sum, it) => sum + Number(it.price || 0) * Number(it.qty || 0), 0)] *)
Definition computed (l : list Item) : Z :=
  fold_left (λ sum it, sum + or_num (item_price it) 0 * or_num (item_qty it) 0) l 0.

(** [typeof body.total === 'number' && body.total > 0 ? body.total : computed] *)
Definition order_total (declared : jsval) (l : list Item) : Z :=
  match declared with
  | JNum t => if decide (0 < t) then t else computed l
  | _ => computed l
  end.

(** [Number(item.qty || 1)] *)
Definition requestedQty (item : Item) : Z := or_num (item_qty item) 1.

(** [item.id || item.productId] *)
Definition item_product (item : Item) : option string :=
  or_str (item_id item) (item_productId item).

(** [sizeInventory.findIndex(s => s.code === size)] *)
Fixpoint findIndex (l : list SizeEntry) (size : string) : option nat :=
  match l with
  | [] => None
  | s :: l' =>
      if decide (code s = size) then Some O
      else S <$> findIndex l' size
  end.

Definition set_sizeInventory (l : list SizeEntry) (p : Product) : Product :=
  {| p_title := p_title p; trackInventoryBySize := trackInventoryBySize p;
     sizeInventory := Some l; stock := stock p |}.

Definition set_stock (n : Z) (p : Product) : Product :=
  {| p_title := p_title p; trackInventoryBySize := trackInventoryBySize p;
     sizeInventory := sizeInventory p; stock := n |}.

(** [await product.save()] *)
Definition save_product (productId : string) (p : Product) : Handler unit :=
  modify (λ db, with_products (<[productId := p]> (products db)) db).

(** The per-size branch of the inventory loop (orders.js 51-70). *)
Definition reserve_size (productId : string) (product : Product)
    (item : Item) (size : string) (inv : list SizeEntry) : Handler unit :=
  match findIndex inv size with
  | None => ret tt
  | Some sizeIdx =>
      match inv !! sizeIdx with
      | None => ret tt
      | Some entry =>
          let currentQty := sz_qty entry in
          reject_if (bool_decide (currentQty < requestedQty item))
            (OutOfStock
               ("Insufficient stock for " +:+ p_title product +:+ " size " +:+ size)
               productId currentQty) >>
          save_product productId
            (set_sizeInventory
               (<[sizeIdx := {| code := code entry;
                                sz_qty := currentQty - requestedQty item |}]> inv)
               product)
      end
  end.

(** The scalar branch of the inventory loop (orders.js 71-85). *)
Definition reserve_stock (productId : string) (product : Product)
    (item : Item) : Handler unit :=
  let currentStock := or_num (Some (stock product)) 0 in
  reject_if (bool_decide (currentStock < requestedQty item))
    (OutOfStock ("Insufficient stock for " +:+ p_title product)
       productId currentStock) >>
  save_product productId (set_stock (stock product - requestedQty item) product).

(** Body of [for (const item of items)] (orders.js 45-88). *)
Definition reserve (item : Item) : Handler unit :=
  match item_product item with
  | None => ret tt
  | Some productId =>
      let* found := get (λ db, products db !! productId) in
      match found with
      | None => ret tt
      | Some product =>
          match trackInventoryBySize product, or_str (item_size item) None,
                sizeInventory product with
          | true, Some size, Some inv =>
              reserve_size productId product item size inv
          | false, _, _ => reserve_stock productId product item
          | _, _, _ => ret tt
          end
      end
  end.

Definition new_order (user : option Actor) (body : CreateBody) : Order :=
  let c := b_customer body in
  let paymentMethod :=
    match or_str (or_str (b_paymentMethod body) (b_payment body)) None with
    | Some m => m
    | None => "COD"
    end in
  {| userId := actor_id <$> user;
     name := field (b_name body) c c_name;
     phone := field (b_phone body) c c_phone;
     address := field (b_address body) c c_address;
     paymentMethod := paymentMethod;
     city := field (b_city body) c c_city;
     state := field (b_state body) c c_state;
     pincode := field (b_pincode body) c c_pincode;
     items := b_items body;
     total := order_total (b_total body) (b_items body);
     status :=
       match b_status body with
       | Some s => if includes ALLOWED_STATUSES s then s else "pending"
       | None => "pending"
       end;
     upi :=
       if decide (paymentMethod = "UPI") then
         (λ u, {| payerName := or_empty (ub_payerName u);
                  txnId := or_empty (ub_txnId u) |}) <$> b_upi body
       else None;
     discount := None; shipping := None; tax := None;
     cancellationReason := None; returnReason := None; returnStatus := None;
     rejectionReason := None; trackingNumber := None; invoiceId := None |}.

(** [await doc.save()] of an order under its id. *)
Definition save_order (id : string) (o : Order) : Handler unit :=
  modify (λ db, with_orders (<[id := o]> (orders db)) db).

(** The three validation guards of order creation (orders.js 22-26). *)
Definition validate (doc : Order) : Handler unit :=
  reject_if (bool_decide (items doc = [])) (Failure 400 "No items") >>
  reject_if (bool_decide (city doc = "") || bool_decide (state doc = "")
             || bool_decide (pincode doc = ""))
    (Failure 400 "City, state and pincode are required") >>
  reject_if (negb (pinOk (pincode doc))) (Failure 400 "Invalid pincode").

(** [newId] is the identifier Mongoose gives the new document. *)
Definition createOrder (user : option Actor) (body : CreateBody)
    (newId : string) : Handler Response :=
  let doc := new_order user body in
  validate doc >>
  for_each reserve (b_items body) >>
  save_order newId doc >>
  ret (Success (DOrder doc) None).

(** ** Lifecycle transitions (orders.js)

    The routes below are registered behind [requireAuth] (and
    [requireAdmin] for the admin ones); the middleware is not among the
    sources.  Each definition is the function registered behind it, applied
    to a request the middleware let through: [user] is [req.user]. *)

(** Rebuilds an order with new values for the fields the transitions
    assign. *)
Definition amend (o : Order) (st : string)
    (cr rr rs rj tn iv : option string) : Order :=
  {| userId := userId o; name := name o; phone := phone o;
     address := address o; paymentMethod := paymentMethod o;
     city := city o; state := state o; pincode := pincode o;
     items := items o; total := total o; status := st; upi := upi o;
     discount := discount o; shipping := shipping o; tax := tax o;
     cancellationReason := cr; returnReason := rr; returnStatus := rs;
     rejectionReason := rj; trackingNumber := tn; invoiceId := iv |}.

Definition set_status (s : string) (o : Order) : Order :=
  amend o s (cancellationReason o) (returnReason o) (returnStatus o)
    (rejectionReason o) (trackingNumber o) (invoiceId o).

Definition set_cancellationReason (r : string) (o : Order) : Order :=
  amend o (status o) (Some r) (returnReason o) (returnStatus o)
    (rejectionReason o) (trackingNumber o) (invoiceId o).

Definition set_returnReason (r : string) (o : Order) : Order :=
  amend o (status o) (cancellationReason o) (Some r) (returnStatus o)
    (rejectionReason o) (trackingNumber o) (invoiceId o).

Definition set_returnStatus (r : string) (o : Order) : Order :=
  amend o (status o) (cancellationReason o) (returnReason o) (Some r)
    (rejectionReason o) (trackingNumber o) (invoiceId o).

Definition set_rejectionReason (r : string) (o : Order) : Order :=
  amend o (status o) (cancellationReason o) (returnReason o) (returnStatus o)
    (Some r) (trackingNumber o) (invoiceId o).

Definition set_trackingNumber (t : string) (o : Order) : Order :=
  amend o (status o) (cancellationReason o) (returnReason o) (returnStatus o)
    (rejectionReason o) (Some t) (invoiceId o).

Definition set_invoiceId (i : string) (o : Order) : Order :=
  amend o (status o) (cancellationReason o) (returnReason o) (returnStatus o)
    (rejectionReason o) (trackingNumber o) (Some i).

(** [if (x) order = f(x)(order)]: an assignment guarded by the truthiness
    of a string. *)
Definition assign_if (x : option string) (f : string → Order → Order)
    (o : Order) : Order :=
  match or_str x None with Some v => f v o | None => o end.

(** [await Order.findById(id)], answering [404] with [message] when there
    is no such order. *)
Definition find_order (id : string) (message : string) : Handler Order :=
  let* found := get (λ db, orders db !! id) in
  match found with
  | Some o => ret o
  | None => reply (Failure 404 message)
  end.

(** [order.userId && order.userId.email] after [populate('userId')]: the
    address of the order's user, when the user exists and has one. *)
Definition populated_email (o : Order) : Handler (option string) :=
  get (λ db, or_str (userId o ≫= λ u, users db !! u ≫= email) None).

Definition send (m : Mail) : Handler unit :=
  modify (λ db, with_outbox (outbox db ++ [m]) db).

Definition is_shipped_or_delivered (s : string) : bool :=
  bool_decide (s = "shipped") || bool_decide (s = "delivered").

(** [router.put('/:id/status')] *)
Definition setStatus (id : string) (newStatus : option string)
    : Handler Response :=
  match or_str newStatus None with
  | None => reply (Failure 400 "Missing status")
  | Some status' =>
      reject_if (negb (includes ALLOWED_STATUSES status'))
        (Failure 400 "Invalid status") >>
      let* order := find_order id "Not found" in
      let previousStatus := status order in
      let order := set_status status' order in
      save_order id order >>
      let* mail := populated_email order in
      match mail with
      | Some to =>
          if bool_decide (status' ≠ previousStatus)
             && is_shipped_or_delivered status'
          then send (StatusUpdateEmail id to status')
          else ret tt
      | None => ret tt
      end >>
      ret (Success (DOrder order) None)
  end.

Definition cancellableStatuses : list string :=
  ["pending"; "cod_pending"; "pending_verification"].

(** [router.post('/:id/cancel')] *)
Definition cancel (user : Actor) (id : string) (reason : option string)
    : Handler Response :=
  let* order := find_order id "Order not found" in
  reject_if (bool_decide (String_of (userId order) ≠ actor_id user)
             && bool_decide (role user ≠ "admin"))
    (Failure 403 "Forbidden") >>
  reject_if (negb (includes cancellableStatuses (status order)))
    (Failure 400 "Order cannot be cancelled in current status") >>
  let order := set_status "cancelled" order in
  let order := assign_if reason set_cancellationReason order in
  save_order id order >>
  ret (Success (DOrder order) None).

(** [router.post('/:id/request-return')] *)
Definition requestReturn (user : Actor) (id : string) (reason : option string)
    : Handler Response :=
  match or_str reason None with
  | None => reply (Failure 400 "Return reason is required")
  | Some reason' =>
      reject_if (bool_decide (trim reason' = ""))
        (Failure 400 "Return reason is required") >>
      let* order := find_order id "Order not found" in
      reject_if (bool_decide (String_of (userId order) ≠ actor_id user))
        (Failure 403 "Forbidden") >>
      reject_if (bool_decide (status order ≠ "delivered"))
        (Failure 400 "Return can only be requested for delivered orders") >>
      let order := set_returnReason (trim reason') order in
      let order := set_returnStatus "Pending" order in
      save_order id order >>
      ret (Success (DOrder order) (Some "Return request submitted"))
  end.

Definition RETURN_STATUSES : list string :=
  ["None"; "Pending"; "Approved"; "Rejected"].

(** [router.put('/:id/admin-update')] *)
Definition adminUpdate (id : string)
    (newStatus trackingNo newReturnStatus : option string)
    : Handler Response :=
  let* order := find_order id "Order not found" in
  let previousStatus := status order in
  let order :=
    match or_str newStatus None with
    | Some s => if includes ALLOWED_STATUSES s then set_status s order else order
    | None => order
    end in
  let order := assign_if trackingNo (λ t, set_trackingNumber (trim t)) order in
  let order :=
    match or_str newReturnStatus None with
    | Some r => if includes RETURN_STATUSES r then set_returnStatus r order else order
    | None => order
    end in
  save_order id order >>
  let* mail := populated_email order in
  match mail, or_str newStatus None with
  | Some to, Some s =>
      if bool_decide (s ≠ previousStatus) && is_shipped_or_delivered s
      then send (StatusUpdateEmail id to s)
      else ret tt
  | _, _ => ret tt
  end >>
  match mail with
  | Some to =>
      if bool_decide (newReturnStatus = Some "Approved")
         && bool_decide (returnStatus order = Some "Approved")
      then send (ReturnApprovalEmail id to None None)
      else ret tt
  | None => ret tt
  end >>
  ret (Success (DOrder order) (Some "Order updated successfully")).

(** [router.post('/:id/approve-return')] *)
Definition approveReturn (id : string) : Handler Response :=
  let* order := find_order id "Order not found" in
  reject_if (bool_decide (returnStatus order ≠ Some "Pending"))
    (Failure 400 "Return request is not pending") >>
  let order := set_returnStatus "Approved" order in
  save_order id order >>
  let* mail := populated_email order in
  match mail with
  | Some to => send (ReturnApprovalEmail id to (Some "Approved") None)
  | None => ret tt
  end >>
  ret (Success (DOrder order) (Some "Return request approved")).

(** [router.post('/:id/reject-return')] *)
Definition rejectReturn (id : string) (reason : option string)
    : Handler Response :=
  let* order := find_order id "Order not found" in
  reject_if (bool_decide (returnStatus order ≠ Some "Pending"))
    (Failure 400 "Return request is not pending") >>
  let order := set_returnStatus "Rejected" order in
  let order := assign_if reason set_rejectionReason order in
  save_order id order >>
  let* mail := populated_email order in
  match mail with
  | Some to => send (ReturnApprovalEmail id to (Some "Rejected") reason)
  | None => ret tt
  end >>
  ret (Success (DOrder order) (Some "Return request rejected")).

(** ** The JavaScript [Date] operations the invoice issuer uses

    A [Date] is its time value, milliseconds since the epoch.  The
    server's local time is a fixed offset [tz], in minutes east of UTC
    (330 for Asia/Kolkata, 0 for a server running in UTC). *)

Definition msPerDay : Z := 86400000.
Definition msPerMinute : Z := 60000.

(** Day number since the epoch to proleptic Gregorian (year, month 1..12,
    day 1..31). *)
Definition civil_from_days (z : Z) : Z * Z * Z :=
  let z := z + 719468 in
  let era := z / 146097 in
  let doe := z - era * 146097 in
  let yoe := (doe - doe / 1460 + doe / 36524 - doe / 146096) / 365 in
  let doy := doe - (365 * yoe + yoe / 4 - yoe / 100) in
  let mp := (5 * doy + 2) / 153 in
  let d := doy - (153 * mp + 2) / 5 + 1 in
  let m := if mp <? 10 then mp + 3 else mp - 9 in
  let y := yoe + era * 400 in
  (if m <=? 2 then y + 1 else y, m, d).

(** Gregorian (year, month 1..12, day) to day number since the epoch; a
    day past the end of the month runs on into the next one, as in the
    [Date] constructor. *)
Definition days_from_civil (y m d : Z) : Z :=
  let y := if m <=? 2 then y - 1 else y in
  let era := y / 400 in
  let yoe := y - era * 400 in
  let mp := if 2 <? m then m - 3 else m + 9 in
  let doy := (153 * mp + 2) / 5 + d - 1 in
  let doe := yoe * 365 + yoe / 4 - yoe / 100 + doy in
  era * 146097 + doe - 719468.

(** [String(n)] for a non-negative integer. *)
Definition String_of_num (n : Z) : string :=
  DecimalString.NilZero.string_of_uint (N.to_uint (Z.to_N n)).

Fixpoint replicate_char (n : nat) (c : Ascii.ascii) : string :=
  match n with
  | O => EmptyString
  | S n' => String c (replicate_char n' c)
  end.

(** [s.padStart(n, c)] *)
Definition padStart (n : nat) (c : Ascii.ascii) (s : string) : string :=
  replicate_char (n - String.length s) c +:+ s.

Definition zero : Ascii.ascii := Ascii.ascii_of_nat 48.
Definition dash : Ascii.ascii := Ascii.ascii_of_nat 45.

(** The calendar date of a time value in UTC. *)
Definition utcDate (t : Z) : Z * Z * Z := civil_from_days (t / msPerDay).

(** [now.toISOString().slice(0, 10)]: the UTC calendar date, [YYYY-MM-DD]
    (years 0 to 9999). *)
Definition isoDate (now : Z) : string :=
  let '(y, m, d) := utcDate now in
  padStart 4 zero (String_of_num y) +:+ "-" +:+
  padStart 2 zero (String_of_num m) +:+ "-" +:+
  padStart 2 zero (String_of_num d).

(** [s.replace(/-/g, '')] *)
Fixpoint remove_dashes (s : string) : string :=
  match s with
  | EmptyString => EmptyString
  | String a s' =>
      if decide (a = dash) then remove_dashes s' else String a (remove_dashes s')
  end.

(** [(now.getFullYear(), now.getMonth() + 1, now.getDate())]: the calendar
    date in the server's local time. *)
Definition localDate (tz now : Z) : Z * Z * Z :=
  civil_from_days ((now + tz * msPerMinute) / msPerDay).

(** [new Date(year, month - 1, day)]: local midnight of a calendar date,
    as a time value. *)
Definition Date_local (tz y m d : Z) : Z :=
  days_from_civil y m d * msPerDay - tz * msPerMinute.

(** ** Invoice issuer ([router.post('/invoices/generate')] of admin.js) *)

(** [Invoice.findOne({ orderId })] *)
Definition findOne (orderId : string) (l : list Invoice) : option Invoice :=
  List.find (λ i, bool_decide (inv_orderId i = orderId)) l.

(** [Invoice.countDocuments({ createdAt: { $gte: from, $lt: to } })] *)
Definition countDocuments (from to : Z) (l : list Invoice) : Z :=
  Z.of_nat (length (filter (λ i, (from ≤ createdAt i)%Z ∧ (createdAt i < to)%Z) l)).

Definition dateStr (now : Z) : string := remove_dashes (isoDate now).

Definition countToday (tz now : Z) (l : list Invoice) : Z :=
  let '(y, m, d) := localDate tz now in
  countDocuments (Date_local tz y m d) (Date_local tz y m (d + 1)) l.

Definition make_invoiceNo (date : string) (count : Z) : string :=
  "INV-" +:+ date +:+ "-" +:+ padStart 4 zero (String_of_num (count + 1)).

(** [tz] is the server's zone, [now] the clock reading of [new Date()],
    [newId] the identifier of the new invoice document.  The creation
    timestamp Mongoose records on [save] is the same clock reading. *)
Definition generateInvoice (tz now : Z) (newId : string)
    (orderId : option string) : Handler Response :=
  match or_str orderId None with
  | None => reply (Failure 400 "Missing orderId")
  | Some orderId' =>
      let* order := find_order orderId' "Order not found" in
      let* existing := get (λ db, findOne orderId' (invoices db)) in
      match existing with
      | Some invoice =>
          ret (Success (DInvoice (inv_id invoice) (invoiceNo invoice)) None)
      | None =>
          let* count := get (λ db, countToday tz now (invoices db)) in
          let invoice :=
            {| inv_id := newId; inv_orderId := orderId';
               invoiceNo := make_invoiceNo (dateStr now) count;
               issuedAt := now; inv_status := "issued"; createdAt := now |} in
          modify (λ db, with_invoices (invoices db ++ [invoice]) db) >>
          save_order orderId' (set_invoiceId newId order) >>
          ret (Success (DInvoice (inv_id invoice) (invoiceNo invoice)) None)
      end
  end.


(** ** Vocabulary of the statements *)

(** The validation guards of order creation, as a test. *)
Definition validates (doc : Order) : bool :=
  negb (bool_decide (items doc = []))
  && negb (bool_decide (city doc = "") || bool_decide (state doc = "")
           || bool_decide (pincode doc = ""))
  && pinOk (pincode doc).

(** Scalar stock counters are never negative. *)
Definition stock_ok (ps : gmap string Product) : Prop :=
  ∀ pid p, ps !! pid = Some p → trackInventoryBySize p = false → 0 ≤ stock p.

(** What the inventory loop takes from product [pid] for a list of items:
    the sum of [Number(item.qty || 1)] over the items that name it. *)
Fixpoint demand (pid : string) (l : list Item) : Z :=
  match l with
  | [] => 0
  | item :: l' =>
      (if decide (item_product item = Some pid) then requestedQty item else 0)
      + demand pid l'
  end.

(** The quantity an item states: its [qty], nothing when it has none. *)
Definition stated_qty (item : Item) : Z := default 0 (item_qty item).

(** The sum of the stated quantities of product [pid] across the items. *)
Fixpoint quantity_sum (pid : string) (l : list Item) : Z :=
  match l with
  | [] => 0
  | item :: l' =>
      (if decide (item_product item = Some pid) then stated_qty item else 0)
      + quantity_sum pid l'
  end.

(** The sum over the line items of price times quantity, in the words of the
    specification. *)
Fixpoint line_sum (l : list Item) : Z :=
  match l with
  | [] => 0
  | item :: l' =>
      default 0 (item_price item) * default 0 (item_qty item) + line_sum l'
  end.

(** A reason that is present and not blank. *)
Definition reason_given (reason : option string) : Prop :=
  ∃ r, reason = Some r ∧ trim r ≠ "".

(** The actor is the user the order belongs to. *)
Definition owns (user : Actor) (o : Order) : Prop :=
  userId o = Some (actor_id user).


(** The total a request declares, when it is a positive number. *)
Definition declared_total (v : jsval) : option Z :=
  match v with
  | JNum t => if decide (0 < t) then Some t else None
  | _ => None
  end.

(** The actor may act on the order: its owner, or an admin. *)
Definition owner_or_admin (user : Actor) (o : Order) : Prop :=
  owns user o ∨ role user = "admin".

(** The order as a cancellation leaves it. *)
Definition cancelled (reason : option string) (o : Order) : Order :=
  assign_if reason set_cancellationReason (set_status "cancelled" o).

(** The number of invoices issued on the UTC calendar day of [now], the
    day the [YYYYMMDD] of a new invoice number names. *)
Definition issued_on_day_of (now : Z) (l : list Invoice) : Z :=
  Z.of_nat (length (filter (λ i, utcDate (createdAt i) = utcDate now) l)).

(** The number of invoices issued on the server-local calendar day of
    [now]. *)
Definition issued_on_local_day_of (tz now : Z) (l : list Invoice) : Z :=
  Z.of_nat (length (filter (λ i, localDate tz (createdAt i) = localDate tz now) l)).

(** No order has two invoices. *)
Definition one_invoice_per_order (l : list Invoice) : Prop :=
  NoDup (inv_orderId <$> l).

(** [P] holds of the [n] integers from [z] on. *)
Fixpoint all_from (P : Z → bool) (n : nat) (z : Z) : bool :=
  match n with
  | O => true
  | S n' => P z && all_from P n' (z + 1)
  end.

(** ** Sample data for the scenarios *)

Definition scalar_product (title : string) (n : Z) : Product :=
  {| p_title := title; trackInventoryBySize := false;
     sizeInventory := None; stock := n |}.

Definition line (pid : string) (price q : Z) : Item :=
  {| item_id := Some pid; item_productId := None; item_title := None;
     item_size := None; item_price := Some price; item_qty := Some q |}.

Definition order_request (l : list Item) : CreateBody :=
  {| b_name := Some "Asha"; b_phone := Some "9800000000";
     b_address := Some "12 MG Road"; b_city := Some "Pune";
     b_state := Some "MH"; b_pincode := Some "411001"; b_customer := None;
     b_items := l; b_total := JUndefined; b_paymentMethod := None;
     b_payment := None; b_status := None; b_upi := None |}.

(** Scenario A: 3 shirts at 100 and 1 cap at 50. *)
Definition request_A : CreateBody :=
  order_request [line "p1" 100 3; line "p2" 50 1].

(** 3 shirts, then 3 caps where only 2 are in stock. *)
Definition request_short : CreateBody :=
  order_request [line "p1" 100 3; line "p2" 50 3].

(** A line item with quantity 0. *)
Definition request_zero : CreateBody := order_request [line "p1" 100 0].

Definition shop : Db :=
  {| products := <["p1" := scalar_product "Shirt" 5]>
                   (<["p2" := scalar_product "Cap" 2]> ∅);
     orders := ∅; users := ∅; invoices := []; outbox := [] |}.

(** The shop after three shirts have been taken. *)
Definition shop_less_3 : Db :=
  with_products (<["p1" := scalar_product "Shirt" 2]> (products shop)) shop.

Definition asha : Actor := {| actor_id := "u1"; role := "user" |}.
Definition ravi : Actor := {| actor_id := "u2"; role := "user" |}.
Definition staff : Actor := {| actor_id := "u9"; role := "admin" |}.

(** Asha's order of scenario A in a given status and return sub-state. *)
Definition sample_order (st : string) (rs : option string) : Order :=
  amend (new_order (Some asha) request_A) st None None rs None None None.

(** A database holding that one order, under id [o1]. *)
Definition db_with (o : Order) : Db :=
  {| products := products shop; orders := <["o1" := o]> ∅;
     users := <["u1" := {| email := Some "asha@example.com" |}]> ∅;
     invoices := []; outbox := [] |}.

(** Clock readings on 1 November 2026 (UTC): 04:30, 09:00 and 19:30.  In
    Asia/Kolkata the last one is 01:00 on 2 November. *)
Definition nov1_0430 : Z := days_from_civil 2026 11 1 * msPerDay + 16200000.
Definition nov1_0900 : Z := days_from_civil 2026 11 1 * msPerDay + 32400000.
Definition nov1_1930 : Z := days_from_civil 2026 11 1 * msPerDay + 70200000.

Definition kolkata : Z := 330.

(** Two orders and no invoice yet. *)
Definition two_orders : Db :=
  {| products := products shop;
     orders := <["o1" := sample_order "paid" None]>
                 (<["o2" := sample_order "paid" None]> ∅);
     users := ∅; invoices := []; outbox := [] |}.

(** ** Further routes of orders.js *)

(** [router.get('/:id')]: behind [authOptional], so [user] may be missing. *)
Definition getOrder (user : option Actor) (id : string) : Handler Response :=
  let* doc := find_order id "Not found" in
  match user with
  | Some u =>
      if bool_decide (actor_id u = String_of (userId doc))
         || bool_decide (role u = "admin")
      then ret (Success (DOrder doc) None)
      else reply (Failure 403 "Forbidden")
  | None => reply (Failure 403 "Forbidden")
  end.

(** [map[status] || status] with [map = { processing: 'paid', completed:
    'delivered' }].  (A name inherited from [Object.prototype] looks up a
    value that is not a string; the test against [ALLOWED_STATUSES] then
    fails, as it does for the name itself.) *)
Definition status_alias (s : string) : string :=
  if decide (s = "processing") then "paid"
  else if decide (s = "completed") then "delivered"
  else s.

(** [router.put('/:id')], the update route of the admin pages:
    [findByIdAndUpdate(id, { status }, { new: true })]. *)
Definition updateOrder (id : string) (newStatus : option string)
    : Handler Response :=
  match or_str newStatus None with
  | None => reply (Failure 400 "Missing status")
  | Some s =>
      let status' := status_alias s in
      reject_if (negb (includes ALLOWED_STATUSES status'))
        (Failure 400 "Invalid status") >>
      let* doc := find_order id "Not found" in
      save_order id (set_status status' doc) >>
      ret (Success (DOrder (set_status status' doc)) None)
  end.

(** The answer of a listing route. *)
Inductive Listing :=
| Docs (docs : list (string * Order))
| ListFailure (httpStatus : Z) (message : string).

(** [.sort({ createdAt: -1 })], with [stamp] giving the creation time of
    the document of an id. *)
Definition newer (stamp : string → Z) : relation (string * Order) :=
  λ a b, stamp b.1 ≤ stamp a.1.

#[local] Instance newer_dec stamp : RelDecision (newer stamp) :=
  λ a b, Z_le_dec (stamp b.1) (stamp a.1).

Definition newest_first (stamp : string → Z) (l : list (string * Order))
    : list (string * Order) :=
  merge_sort (newer stamp) l.

(** [Order.find({ userId })] *)
Definition orders_of (u : Actor) (db : Db) : list (string * Order) :=
  filter (λ d, userId d.2 = Some (actor_id u)) (map_to_list (orders db)).

(** [router.get('/')]: the caller's orders with [mine=1], every order for
    an admin. *)
Definition listOrders (stamp : string → Z) (user : option Actor)
    (mine : option string) (db : Db) : Listing :=
  if bool_decide (or_str mine None = Some "1") then
    match user with
    | None => ListFailure 401 "Unauthorized"
    | Some u => Docs (newest_first stamp (orders_of u db))
    end
  else
    match user with
    | None => ListFailure 401 "Unauthorized"
    | Some u =>
        if bool_decide (role u ≠ "admin") then ListFailure 403 "Forbidden"
        else Docs (newest_first stamp (map_to_list (orders db)))
    end.

(** [router.get('/mine')] *)
Definition listMine (stamp : string → Z) (user : Actor) (db : Db) : Listing :=
  Docs (newest_first stamp (orders_of user db)).

(** ** The routes as one transition system *)

Inductive Request :=
| CreateOrder (user : option Actor) (body : CreateBody) (newId : string)
| GetOrder (user : option Actor) (id : string)
| SetStatus (id : string) (newStatus : option string)
| UpdateOrder (id : string) (newStatus : option string)
| Cancel (user : Actor) (id : string) (reason : option string)
| RequestReturn (user : Actor) (id : string) (reason : option string)
| AdminUpdate (id : string) (newStatus trackingNo newReturnStatus : option string)
| ApproveReturn (id : string)
| RejectReturn (id : string) (reason : option string)
| GenerateInvoice (tz now : Z) (newId : string) (orderId : option string).

Definition route (r : Request) : Handler Response :=
  match r with
  | CreateOrder user body newId => createOrder user body newId
  | GetOrder user id => getOrder user id
  | SetStatus id s => setStatus id s
  | UpdateOrder id s => updateOrder id s
  | Cancel user id reason => cancel user id reason
  | RequestReturn user id reason => requestReturn user id reason
  | AdminUpdate id s t r => adminUpdate id s t r
  | ApproveReturn id => approveReturn id
  | RejectReturn id reason => rejectReturn id reason
  | GenerateInvoice tz now newId orderId => generateInvoice tz now newId orderId
  end.

Definition serve (r : Request) (db : Db) : Response * Db := run (route r) db.

(** The database after a sequence of requests. *)
Fixpoint serve_all (rs : list Request) (db : Db) : Db :=
  match rs with
  | [] => db
  | r :: rs' => serve_all rs' (serve r db).2
  end.

(** A database with products and users and no order or invoice yet. *)
Definition fresh_db (ps : gmap string Product) (us : gmap string User) : Db :=
  {| products := ps; orders := ∅; users := us; invoices := []; outbox := [] |}.

(** Every stored order has one of the five statuses. *)
Definition statuses_allowed (db : Db) : Prop :=
  ∀ id o, orders db !! id = Some o → status o ∈ ALLOWED_STATUSES.

(** Every stored return sub-state is absent or one of the four. *)
Definition return_states_known (db : Db) : Prop :=
  ∀ id o r, orders db !! id = Some o → returnStatus o = Some r →
            r ∈ RETURN_STATUSES.

(** Per-size counters are never negative. *)
Definition sizes_ok (ps : gmap string Product) : Prop :=
  ∀ pid p inv e,
    ps !! pid = Some p → sizeInventory p = Some inv → e ∈ inv → 0 ≤ sz_qty e.

(** The order as the admin update leaves it: each of the three fields is
    assigned when it is supplied and, for the two statuses, known. *)
Definition admin_updated (newStatus trackingNo newReturnStatus : option string)
    (o : Order) : Order :=
  let o :=
    match or_str newStatus None with
    | Some s => if includes ALLOWED_STATUSES s then set_status s o else o
    | None => o
    end in
  let o := assign_if trackingNo (λ t, set_trackingNumber (trim t)) o in
  match or_str newReturnStatus None with
  | Some r => if includes RETURN_STATUSES r then set_returnStatus r o else o
  | None => o
  end.

(** What a stored order may look like after a request: one of the five
    statuses, and a return sub-state that is absent or one of the four. *)
Definition well_formed_order (o : Order) : Prop :=
  status o ∈ ALLOWED_STATUSES ∧
  ∀ r, returnStatus o = Some r → r ∈ RETURN_STATUSES.

(** The address a notification about an order goes to: the email of the
    order's user, when there is such a user and the email is not empty. *)
Definition contact (db : Db) (o : Order) : option string :=
  or_str (userId o ≫= λ u, users db !! u ≫= email) None.

(** A jacket tracked by size: 2 in S, none in M. *)
Definition jacket : Product :=
  {| p_title := "Jacket"; trackInventoryBySize := true;
     sizeInventory := Some [ {| code := "S"; sz_qty := 2 |};
                             {| code := "M"; sz_qty := 0 |} ];
     stock := 0 |}.

(** The shop with the jacket added. *)
Definition sized_shop : Db :=
  with_products (<["p3" := jacket]> (products shop)) shop.

Definition sized_line (pid size : string) (price q : Z) : Item :=
  {| item_id := Some pid; item_productId := None; item_title := None;
     item_size := Some size; item_price := Some price; item_qty := Some q |}.

(** ** admin.js: the replies to reviews *)

Definition quote_char : Ascii.ascii := Ascii.ascii_of_nat 34.
Definition apostrophe : Ascii.ascii := Ascii.ascii_of_nat 39.
Definition ampersand : Ascii.ascii := Ascii.ascii_of_nat 38.
Definition less_than : Ascii.ascii := Ascii.ascii_of_nat 60.
Definition greater_than : Ascii.ascii := Ascii.ascii_of_nat 62.

(** [s.replace(/c/g, r)] for a pattern of one character. *)
Fixpoint replace_all (c : Ascii.ascii) (r : string) (s : string) : string :=
  match s with
  | EmptyString => EmptyString
  | String a s' =>
      if decide (a = c) then r +:+ replace_all c r s'
      else String a (replace_all c r s')
  end.

(** [sanitize] of the reply route: five replacements, the ampersand
    first. *)
Definition sanitize (s : string) : string :=
  replace_all apostrophe "&#039;"
    (replace_all quote_char "&quot;"
       (replace_all greater_than "&gt;"
          (replace_all less_than "&lt;"
             (replace_all ampersand "&amp;" s)))).

(** What the five replacements make of one character. *)
Definition escape (a : Ascii.ascii) : string :=
  if decide (a = ampersand) then "&amp;"
  else if decide (a = less_than) then "&lt;"
  else if decide (a = greater_than) then "&gt;"
  else if decide (a = quote_char) then "&quot;"
  else if decide (a = apostrophe) then "&#039;"
  else String a EmptyString.

(** [sanitize(String(text).slice(0, 2000))], the text stored with a
    reply. *)
Definition reply_text (text : string) : string :=
  sanitize (String.substring 0 2000 text).

(** ** admin.js: the enriched order detail *)

(** The line terminators a [.] of a regular expression does not match. *)
Definition is_line_terminator (a : Ascii.ascii) : bool :=
  let n := Ascii.nat_of_ascii a in (n =? 10)%nat || (n =? 13)%nat.

(** [(?!.*\d)]: no digit in what is left of the line. *)
Fixpoint no_digit_ahead (s : string) : bool :=
  match s with
  | EmptyString => true
  | String a s' =>
      if is_line_terminator a then true
      else if is_digit a then false
      else no_digit_ahead s'
  end.

(** [\d{6}(?!.*\d)] matches at the start of [s]. *)
Definition pin_here (s : string) : bool :=
  (String.length (String.substring 0 6 s) =? 6)%nat
  && all_digits (String.substring 0 6 s)
  && no_digit_ahead (String.substring 6 (String.length s - 6) s).

(** [a.match(/(\d{6})(?!.*\d)/)]: the captured group of the leftmost
    match. *)
Fixpoint find_pin (s : string) : option string :=
  if pin_here s then Some (String.substring 0 6 s)
  else match s with
       | EmptyString => None
       | String _ s' => find_pin s'
       end.

(** [s.replace(pat, '')] for a string pattern: the first occurrence goes. *)
Fixpoint remove_first (pat s : string) : string :=
  if String.prefix pat s then String.substring (String.length pat)
                                (String.length s - String.length pat) s
  else match s with
       | EmptyString => EmptyString
       | String a s' => String a (remove_first pat s')
       end.

(** [s.split(/,|\n/)] *)
Fixpoint split_parts (s : string) : list string :=
  match s with
  | EmptyString => [EmptyString]
  | String a s' =>
      if bool_decide (a = Ascii.ascii_of_nat 44)
         || bool_decide (a = Ascii.ascii_of_nat 10)
      then EmptyString :: split_parts s'
      else match split_parts s' with
           | p :: ps => String a p :: ps
           | [] => [String a EmptyString]
           end
  end.

Definition is_letter (a : Ascii.ascii) : bool :=
  let n := Ascii.nat_of_ascii a in
  ((65 <=? n)%nat && (n <=? 90)%nat) || ((97 <=? n)%nat && (n <=? 122)%nat).

(** [s.replace(/[^A-Za-z\s]/g, '')] *)
Fixpoint letters_and_spaces (s : string) : string :=
  match s with
  | EmptyString => EmptyString
  | String a s' =>
      if is_letter a || is_space a then String a (letters_and_spaces s')
      else letters_and_spaces s'
  end.

Record Derived := { d_city : string; d_pincode : string }.

(** [deriveFromAddress] of the order detail route. *)
Definition deriveFromAddress (addr : string) : Derived :=
  let pinMatch := find_pin addr in
  let pincode := match pinMatch with Some p => p | None => "" end in
  let cleaned := match pinMatch with
                 | Some p => remove_first p addr
                 | None => addr
                 end in
  let parts := filter (λ s, s ≠ "") (trim <$> split_parts cleaned) in
  let city := match last parts with
              | Some p => trim (letters_and_spaces p)
              | None => ""
              end in
  {| d_city := city; d_pincode := pincode |}.

Record Shipping := {
  sh_name : string;
  sh_phone : string;
  sh_address1 : string;
  sh_address2 : string;
  sh_city : string;
  sh_state : string;
  sh_pincode : string
}.

(** The [shipping] object of the order detail. *)
Definition detail_shipping (doc : Order) : Shipping :=
  let derived := deriveFromAddress (address doc) in
  {| sh_name := name doc;
     sh_phone := phone doc;
     sh_address1 := address doc;
     sh_address2 := "";
     sh_city := or_empty (or_str (Some (city doc)) (Some (d_city derived)));
     sh_state := if bool_decide (state doc ≠ "") && bool_decide (trim (state doc) ≠ "")
                 then state doc else "";
     sh_pincode :=
       if bool_decide (pincode doc ≠ "") && bool_decide (trim (pincode doc) ≠ "")
       then pincode doc else or_empty (Some (d_pincode derived)) |}.

(** ** Sales overview ([router.get('/stats/overview')] of admin.js): the
    daily series *)

(** [s.toLowerCase()], over the ASCII letters. *)
Definition lower (a : Ascii.ascii) : Ascii.ascii :=
  let n := Ascii.nat_of_ascii a in
  if (65 <=? n)%nat && (n <=? 90)%nat then Ascii.ascii_of_nat (n + 32) else a.

Fixpoint toLowerCase (s : string) : string :=
  match s with
  | EmptyString => EmptyString
  | String a s' => String (lower a) (toLowerCase s')
  end.

(** [range === '7d' ? 7 : range === '90d' ? 90 : 30], of
    [String(req.query.range || '30d').toLowerCase()]. *)
Definition range_days (range : option string) : Z :=
  let range := toLowerCase (String_of (or_str range (Some "30d"))) in
  if decide (range = "7d") then 7 else if decide (range = "90d") then 90 else 30.

(** *** Local time

    The zone of the server gives the offset of local time from UTC at an
    instant ([z_offset], in milliseconds), and the instant a local time
    value stands for ([z_utc], the [UTC(t)] of ECMAScript).  A [Date]
    setter reads the local time value of the instant, changes a field of
    it and goes back through [z_utc]. *)
Record Zone := { z_offset : Z → Z; z_utc : Z → Z }.

(** A zone without daylight saving, [tz] minutes east of UTC. *)
Definition fixed_zone (tz : Z) : Zone :=
  {| z_offset := λ _, tz * msPerMinute;
     z_utc := λ l, l - tz * msPerMinute |}.

(** A zone whose offset changes once, at the instant [change], from
    [before] to [after].  A local time that the change skips or repeats is
    read with the offset before the change. *)
Definition zone_with_change (change before after : Z) : Zone :=
  {| z_offset := λ t, if decide (t < change) then before else after;
     z_utc := λ l,
       if decide (l - before < change) then l - before
       else if decide (change ≤ l - after) then l - after
       else l - before |}.

(** [d.setHours(0, 0, 0, 0)] *)
Definition setHours0 (z : Zone) (t : Z) : Z :=
  z_utc z ((t + z_offset z t) / msPerDay * msPerDay).

(** [d.setDate(d.getDate() + k)]: the local time value moves by [k] days. *)
Definition addDays (z : Zone) (k t : Z) : Z :=
  z_utc z (t + z_offset z t + k * msPerDay).

(** [start.setHours(0, 0, 0, 0); start.setDate(start.getDate() - (days - 1))]:
    local midnight, [days - 1] days before today. *)
Definition series_start (z : Zone) (now days : Z) : Z :=
  addDays z (- (days - 1)) (setHours0 z now).

(** One group of the aggregation [seriesAgg]: the day ([_id], as
    [%Y-%m-%d]), the revenue and the number of orders of that day. *)
Record Bucket := { b_id : string; b_revenue : Z; b_orders : Z }.

Record Point := { pt_date : string; pt_revenue : Z; pt_orders : Z }.

(** The body of the loop: the point pushed for one position of the cursor. *)
Definition series_point (seriesAgg : list Bucket) (cursor : Z) : Point :=
  let key := isoDate cursor in
  let found := List.find (λ d, bool_decide (b_id d = key)) seriesAgg in
  {| pt_date := key;
     pt_revenue := or_num (b_revenue <$> found) 0;
     pt_orders := or_num (b_orders <$> found) 0 |}.

(** [while (cursor <= end) { ...; cursor.setDate(cursor.getDate() + 1) }].
    The loop is bounded by [fuel] turns; [None] when they do not suffice. *)
Fixpoint fillSeries (fuel : nat) (seriesAgg : list Bucket) (z : Zone)
    (end_ cursor : Z) : option (list Point) :=
  match fuel with
  | O => None
  | S fuel' =>
      if decide (cursor ≤ end_) then
        match fillSeries fuel' seriesAgg z end_ (addDays z 1 cursor) with
        | Some rest => Some (series_point seriesAgg cursor :: rest)
        | None => None
        end
      else Some []
  end.

(** The [series] of the response, from the query parameter and the result
    of the aggregation; [end] and [start] are taken from one reading [now]
    of the clock. *)
Definition overview_series (fuel : nat) (z : Zone) (now : Z)
    (range : option string) (seriesAgg : list Bucket) : option (list Point) :=
  fillSeries fuel seriesAgg z now (series_start z now (range_days range)).

(** Europe/London around the end of summer time in 2026: one hour ahead of
    UTC until 25 October, 01:00 UTC, and on UTC from then. *)
Definition london_2026 : Zone :=
  zone_with_change (days_from_civil 2026 10 25 * msPerDay + 3600000) 3600000 0.

(** A zone two hours ahead of UTC whose clocks go forward by one hour at
    local midnight of 24 April 2026 (22:00 UTC on the 23rd). *)
Definition forward_at_midnight : Zone :=
  zone_with_change (days_from_civil 2026 4 23 * msPerDay + 79200000)
    7200000 10800000.

(** The day number, since the epoch, of the local calendar date on a
    server [tz] minutes east of UTC. *)
Definition local_day (tz now : Z) : Z := (now + tz * msPerMinute) / msPerDay.

(** ** The body of the admin update as it arrives

    The three fields of [req.body] may be of any type.  A status or return
    status that is not a string is in none of the lists; a tracking number
    that is truthy and not a string has no [trim], so that
    [trackingNumber.trim()] throws and the [catch] of the handler answers
    with the 500, before anything is saved. *)

Definition truthy (v : jsval) : bool :=
  match v with
  | JUndefined | JNull => false
  | JBool b => b
  | JNum n => negb (n =? 0)
  | JStr s => negb (bool_decide (s = ""))
  end.

Definition as_string (v : jsval) : option string :=
  match v with JStr s => Some s | _ => None end.

Definition adminUpdateBody (id : string)
    (status trackingNumber returnStatus : jsval) : Handler Response :=
  if truthy trackingNumber && negb (bool_decide (is_Some (as_string trackingNumber)))
  then
    let* _ := find_order id "Order not found" in
    reply (Failure 500 "Failed to update order")
  else
    adminUpdate id (as_string status) (as_string trackingNumber)
      (as_string returnStatus).

(** A request to one of the two routes a customer has for an order placed:
    [cancel] and [request-return]. *)
Definition cancel_or_return (r : Request) : Prop :=
  match r with
  | Cancel _ _ _ | RequestReturn _ _ _ => True
  | _ => False
  end.

(** * Properties *)

(** ** The handler monad *)

Ltac unfold_handler :=
  unfold run, save_order, save_product, find_order, populated_email, send,
    bind, reject_if, ret, reply, get, modify in *.

(** Case analysis on every test a handler body makes in a hypothesis. *)
Ltac case_matches :=
  repeat (first
    [ progress simplify_eq/=
    | match goal with
      | H : context [match ?t with _ => _ end] |- _ => destruct t eqn:?
      end ]).

Lemma bind_inr {A B} (m : Handler A) (k : A → Handler B) db a db1 :
  m db = (inr a, db1) → bind m k db = k a db1.
Proof. intros H. unfold bind. by rewrite H. Qed.

Lemma bind_inl {A B} (m : Handler A) (k : A → Handler B) db r db1 :
  m db = (inl r, db1) → bind m k db = (inl r, db1).
Proof. intros H. unfold bind. by rewrite H. Qed.

Lemma for_each_app {A} (f : A → Handler unit) l1 l2 db db1 :
  for_each f l1 db = (inr tt, db1) →
  for_each f (l1 ++ l2) db = for_each f l2 db1.
Proof.
  revert db. induction l1 as [|x l1 IH]; intros db H; simpl in *.
  - unfold ret in H. by simplify_eq.
  - unfold bind in *. destruct (f x db) as [[r|[]] db2]; [done|]. by apply IH.
Qed.

Lemma includes_elem_of l s : includes l s = true ↔ s ∈ l.
Proof.
  induction l as [|x l IH]; simpl.
  - rewrite elem_of_nil. split; [done | tauto].
  - rewrite elem_of_cons. destruct (decide (x = s)) as [->|Hne].
    + tauto.
    + rewrite IH. split; [tauto | intros [?|?]; [congruence | done]].
Qed.

Lemma or_num_0 x : or_num x 0 = default 0 x.
Proof. destruct x as [n|]; simpl; [|done]. by destruct (decide (n = 0)). Qed.

(** ** Order creation *)

Lemma validate_pass doc db :
  validates doc = true → validate doc db = (inr tt, db).
Proof.
  unfold validates, validate. intros H.
  apply andb_prop in H as [H H3]. apply andb_prop in H as [H1 H2].
  apply negb_true_iff in H1, H2.
  unfold_handler. rewrite H1, H2, H3. done.
Qed.

Lemma validate_fail doc db :
  validates doc = false →
  ∃ msg, validate doc db = (inl (Failure 400 msg), db).
Proof.
  unfold validates, validate. intros H. unfold_handler.
  destruct (bool_decide (items doc = [])); [by eexists|].
  destruct (bool_decide (city doc = "") || bool_decide (state doc = "")
            || bool_decide (pincode doc = "")); [by eexists|].
  simpl in H. rewrite H. by eexists.
Qed.

(** The inventory loop touches nothing but the products, and a refusal
    leaves every counter as it found it. *)
Lemma reserve_frame item db x db1 :
  reserve item db = (x, db1) →
  orders db1 = orders db ∧ users db1 = users db ∧
  invoices db1 = invoices db ∧ outbox db1 = outbox db ∧
  (∀ r, x = inl r → db1 = db ∧ ∃ msg id n, r = OutOfStock msg id n).
Proof.
  unfold reserve, reserve_size, reserve_stock. unfold_handler.
  intros H.
  case_matches;
  repeat split; try done; intros; simplify_eq; eauto.
Qed.

Lemma for_each_reserve_frame l db x db1 :
  for_each reserve l db = (x, db1) →
  orders db1 = orders db ∧ users db1 = users db ∧
  invoices db1 = invoices db ∧ outbox db1 = outbox db.
Proof.
  revert db. induction l as [|item l IH]; intros db H; simpl in H.
  - unfold ret in H. by simplify_eq.
  - unfold bind in H. destruct (reserve item db) as [[r|[]] db2] eqn:E.
    + simplify_eq. apply reserve_frame in E. tauto.
    + apply reserve_frame in E as (E1&E2&E3&E4&_).
      apply IH in H as (H1&H2&H3&H4).
      rewrite H1, H2, H3, H4. done.
Qed.

(** One turn of the loop on a product with a scalar counter: the counter
    drops by what the item takes from it, and only if that leaves it
    non-negative. *)
Lemma reserve_scalar_step item db db1 pid p :
  reserve item db = (inr tt, db1) →
  products db !! pid = Some p → trackInventoryBySize p = false →
  ∃ p1, products db1 !! pid = Some p1 ∧ trackInventoryBySize p1 = false ∧
        p_title p1 = p_title p ∧
        stock p1 = stock p
          - (if decide (item_product item = Some pid) then requestedQty item else 0) ∧
        (item_product item = Some pid → 0 ≤ stock p1).
Proof.
  intros H Hp Ht. unfold reserve in H.
  destruct (item_product item) as [q|] eqn:Eq; cycle 1.
  { unfold ret in H. simplify_eq. exists p. rewrite decide_False by done.
    repeat split; [done..|lia|done]. }
  unfold_handler.
  destruct (decide (q = pid)) as [->|Hne].
  - rewrite Hp, Ht in H. unfold reserve_stock in H. unfold_handler.
    rewrite decide_True by done.
    assert (or_num (Some (stock p)) 0 = stock p) as Hor.
    { simpl. by destruct (decide (stock p = 0)). }
    rewrite Hor in H.
    destruct (bool_decide _) eqn:Hlt in H; [done|].
    apply bool_decide_eq_false in Hlt. simplify_eq/=.
    eexists. rewrite lookup_insert_eq. repeat split; simpl; [done..|lia].
  - assert (Some q ≠ Some pid) by congruence. rewrite decide_False by done.
    assert (products db1 !! pid = Some p) as Hsame.
    { destruct (products db !! q) as [product|] eqn:Eprod; [|by simplify_eq].
      unfold reserve_size, reserve_stock in H. unfold_handler.
      case_matches; by rewrite ?lookup_insert_ne. }
    exists p. repeat split; [done..|lia|done].
Qed.

(** The whole loop, when no item is refused. *)
Lemma for_each_reserve_scalar l db db1 pid p :
  for_each reserve l db = (inr tt, db1) →
  products db !! pid = Some p → trackInventoryBySize p = false →
  ∃ p1, products db1 !! pid = Some p1 ∧ trackInventoryBySize p1 = false ∧
        p_title p1 = p_title p ∧ stock p1 = stock p - demand pid l.
Proof.
  revert db p. induction l as [|item l IH]; intros db p H Hp Ht; simpl in H.
  - unfold ret in H. simplify_eq. exists p. simpl. repeat split; [done..|lia].
  - unfold bind in H. destruct (reserve item db) as [[r|[]] db2] eqn:E; [done|].
    destruct (reserve_scalar_step _ _ _ _ _ E Hp Ht) as (p2&Hp2&Ht2&Hti&Hs&_).
    destruct (IH _ _ H Hp2 Ht2) as (p1&?&?&?&?).
    exists p1. simpl. repeat split; [done|done|congruence|lia].
Qed.

(** One turn of the loop keeps the scalar counters non-negative, whatever
    its outcome. *)
Lemma reserve_stock_ok item db x db1 :
  reserve item db = (x, db1) → stock_ok (products db) → stock_ok (products db1).
Proof.
  intros H Hok. destruct x as [r|[]].
  - apply reserve_frame in H as (_&_&_&_&H). by destruct (H r eq_refl) as [-> _].
  - intros pid p1 Hp1 Ht1.
    destruct (products db !! pid) as [p|] eqn:Hp.
    + destruct (trackInventoryBySize p) eqn:Ht.
      * (* a per-size product keeps its mode *)
        exfalso. clear Hok. unfold reserve in H.
        destruct (item_product item) as [q|]; cycle 1.
        { unfold ret in H. simplify_eq; congruence. }
        unfold_handler. destruct (products db !! q) as [product|] eqn:Eprod;
          [|simplify_eq; congruence].
        destruct (decide (q = pid)) as [->|Hne].
        -- assert (product = p) as -> by congruence. rewrite Ht in H.
           unfold reserve_size in H. unfold_handler.
           case_matches; try congruence;
           rewrite lookup_insert_eq in Hp1; simplify_eq/=; congruence.
        -- unfold reserve_size, reserve_stock in H. unfold_handler.
           case_matches; try congruence;
           rewrite lookup_insert_ne in Hp1 by done; congruence.
      * destruct (reserve_scalar_step _ _ _ _ _ H Hp Ht) as (p2&Hp2&_&_&Hs&Hnn).
        assert (p2 = p1) as -> by congruence.
        destruct (decide (item_product item = Some pid)); [by apply Hnn|].
        specialize (Hok _ _ Hp Ht). lia.
    + (* the loop creates no product *)
      exfalso. unfold reserve in H.
      destruct (item_product item) as [q|]; cycle 1.
      { unfold ret in H. simplify_eq; congruence. }
      unfold_handler. destruct (products db !! q) as [product|] eqn:Eprod;
        [|simplify_eq; congruence].
      assert (q ≠ pid) by congruence.
      unfold reserve_size, reserve_stock in H. unfold_handler.
      case_matches; try congruence;
      rewrite lookup_insert_ne in Hp1 by done; congruence.
Qed.

Lemma for_each_reserve_stock_ok l db x db1 :
  for_each reserve l db = (x, db1) → stock_ok (products db) → stock_ok (products db1).
Proof.
  revert db. induction l as [|item l IH]; intros db H Hok; simpl in H.
  - unfold ret in H. by simplify_eq.
  - unfold bind in H. destruct (reserve item db) as [[r|[]] db2] eqn:E.
    + simplify_eq. by eapply reserve_stock_ok.
    + eapply IH; [done|]. by eapply reserve_stock_ok.
Qed.

(** Order creation is its validation, then the inventory loop, then the
    persisting of the order. *)
Lemma createOrder_run user body newId db :
  validates (new_order user body) = true →
  run (createOrder user body newId) db =
    match for_each reserve (b_items body) db with
    | (inl r, db1) => (r, db1)
    | (inr _, db1) =>
        (Success (DOrder (new_order user body)) None,
         with_orders (<[newId := new_order user body]> (orders db1)) db1)
    end.
Proof.
  intros Hv. unfold createOrder, run.
  rewrite (bind_inr _ _ _ _ _ (validate_pass _ db Hv)).
  unfold bind at 1. destruct (for_each reserve (b_items body) db) as [[r|[]] db1]; done.
Qed.

Lemma createOrder_invalid user body newId db :
  validates (new_order user body) = false →
  ∃ msg, run (createOrder user body newId) db = (Failure 400 msg, db).
Proof.
  intros Hv. destruct (validate_fail _ db Hv) as [msg Hm].
  exists msg. unfold createOrder, run. by rewrite (bind_inl _ _ _ _ _ Hm).
Qed.

(** The loop stops at the first refusal, which is a stock refusal, with the
    counters as the earlier items left them. *)
Lemma for_each_reserve_refusal l db r db1 :
  for_each reserve l db = (inl r, db1) →
  ∃ pre item post db2,
    l = (pre ++ item :: post)%list ∧ for_each reserve pre db = (inr tt, db1) ∧
    reserve item db1 = (inl r, db2) ∧ ∃ msg id n, r = OutOfStock msg id n.
Proof.
  revert db. induction l as [|item l IH]; intros db E; simpl in E; [done|].
  unfold bind in E. destruct (reserve item db) as [[r'|[]] db3] eqn:E2.
  - injection E as -> ->.
    pose proof (reserve_frame _ _ _ _ E2) as (_&_&_&_&F).
    destruct (F _ eq_refl) as (Heq&?). exists [], item, l, db1.
    repeat split; [by rewrite Heq|by rewrite Heq, E2, Heq|done].
  - destruct (IH _ E) as (pre&it&post&db2&->&Hpre&Hit&?).
    exists (item :: pre), it, post, db2. repeat split; [|done..].
    simpl. unfold bind. by rewrite E2.
Qed.

Lemma createOrder_success_inv user body newId db doc msg db' :
  run (createOrder user body newId) db = (Success (DOrder doc) msg, db') →
  validates (new_order user body) = true ∧ doc = new_order user body ∧
  ∃ db1, for_each reserve (b_items body) db = (inr tt, db1) ∧
         db' = with_orders (<[newId := doc]> (orders db1)) db1.
Proof.
  intros H. destruct (validates (new_order user body)) eqn:Hv.
  - rewrite createOrder_run in H by done.
    destruct (for_each reserve (b_items body) db) as [[r|[]] db1] eqn:E.
    + apply for_each_reserve_refusal in E as (?&?&?&?&_&_&_&?&?&?&?).
      simplify_eq.
    + simplify_eq. eauto.
  - destruct (createOrder_invalid user body newId db Hv) as [m Hm]. congruence.
Qed.

Lemma computed_line_sum l : computed l = line_sum l.
Proof.
  unfold computed.
  assert (∀ acc, fold_left
            (λ sum it, sum + or_num (item_price it) 0 * or_num (item_qty it) 0)
            l acc = acc + line_sum l) as H.
  { induction l as [|item l IH]; intros acc; simpl; [lia|].
    rewrite IH, !or_num_0. lia. }
  by rewrite H.
Qed.

Lemma shop_stock_ok : stock_ok (products shop).
Proof.
  intros pid p Hp _. simpl in Hp.
  destruct (decide (pid = "p1")) as [->|].
  { rewrite lookup_insert_eq in Hp. by simplify_eq. }
  rewrite lookup_insert_ne in Hp by done.
  destruct (decide (pid = "p2")) as [->|].
  { rewrite lookup_insert_eq in Hp. by simplify_eq. }
  rewrite lookup_insert_ne in Hp by done. by rewrite lookup_empty in Hp.
Defined.

(** Scenario A: two items, 3 at 100 and 1 at 50, on stocks 5 and 2. *)
Example scenario_A :
  let r := run (createOrder None request_A "o1") shop in
  (∃ doc, r.1 = Success (DOrder doc) None ∧ total doc = 350) ∧
  stock <$> products r.2 !! "p1" = Some 2 ∧
  stock <$> products r.2 !! "p2" = Some 1.
Proof. vm_compute. eauto. Qed.

(** Scenario B: 2 requested of a product with 1 in stock. *)
Example scenario_B :
  let db := with_products (<["p1" := scalar_product "Shirt" 1]> ∅) shop in
  let r := run (createOrder None (order_request [line "p1" 100 2]) "o1") db in
  r.1 = OutOfStock "Insufficient stock for Shirt" "p1" 1 ∧
  stock <$> products r.2 !! "p1" = Some 1 ∧ orders r.2 !! "o1" = None.
Proof. vm_compute. done. Qed.

(** C1 (as amended).  For products with a scalar counter: order creation
    keeps every such counter non-negative; when the loop reaches a line item
    that asks for more than the counter holds, the answer is the 409 stock
    refusal naming the item's product and the quantity available, and the
    database is as the earlier items left it; and when the order is created,
    each counter has dropped by the sum, over the items naming the product,
    of the requested quantity [Number(item.qty || 1)], a missing or zero
    quantity counting as one. *)
Theorem createOrder_scalar_stock user body newId db :
  (stock_ok (products db) →
   stock_ok (products (run (createOrder user body newId) db).2)) ∧
  (∀ pre item post db1 pid p,
     validates (new_order user body) = true →
     b_items body = (pre ++ item :: post)%list →
     for_each reserve pre db = (inr tt, db1) →
     item_product item = Some pid →
     products db1 !! pid = Some p → trackInventoryBySize p = false →
     stock p < requestedQty item →
     run (createOrder user body newId) db =
       (OutOfStock ("Insufficient stock for " +:+ p_title p) pid (stock p), db1)) ∧
  (∀ doc msg db',
     run (createOrder user body newId) db = (Success (DOrder doc) msg, db') →
     ∀ pid p,
       products db !! pid = Some p → trackInventoryBySize p = false →
       ∃ p', products db' !! pid = Some p' ∧ trackInventoryBySize p' = false ∧
             stock p' = stock p - demand pid (b_items body)).
Proof.
  split; [|split].
  - intros Hok. destruct (validates (new_order user body)) eqn:Hv.
    + rewrite createOrder_run by done.
      destruct (for_each reserve (b_items body) db) as [[r|[]] db1] eqn:E;
        simpl; by eapply for_each_reserve_stock_ok.
    + destruct (createOrder_invalid user body newId db Hv) as [m ->]. done.
  - intros pre item post db1 pid p Hv Hitems Hpre Hid Hp Ht Hlt.
    rewrite createOrder_run by done.
    assert (reserve item db1 =
            (inl (OutOfStock ("Insufficient stock for " +:+ p_title p) pid (stock p)),
             db1)) as Hres.
    { unfold reserve. rewrite Hid. unfold_handler. rewrite Hp, Ht.
      unfold reserve_stock. unfold_handler.
      assert (or_num (Some (stock p)) 0 = stock p) as ->.
      { simpl. by destruct (decide (stock p = 0)). }
      by rewrite bool_decide_eq_true_2. }
    rewrite Hitems, (for_each_app _ _ _ _ _ Hpre). simpl.
    by rewrite (bind_inl _ _ _ _ _ Hres).
  - intros doc msg db' H pid p Hp Ht.
    apply createOrder_success_inv in H as (_&_&db1&Hloop&->).
    destruct (for_each_reserve_scalar _ _ _ _ _ Hloop Hp Ht) as (p1&?&?&?&?).
    by exists p1.
Qed.

(** The theorem at work on scenario A, on a refused order, and on the
    invariant. *)
Lemma createOrder_scalar_stock_witness :
  stock_ok (products (run (createOrder None request_A "o1") shop).2) ∧
  run (createOrder None request_short "o1") shop =
    (OutOfStock "Insufficient stock for Cap" "p2" 2, shop_less_3) ∧
  ∃ p', products (run (createOrder None request_A "o1") shop).2 !! "p1" = Some p' ∧
        trackInventoryBySize p' = false ∧ stock p' = 5 - 3.
Proof.
  split; [|split].
  - apply (createOrder_scalar_stock None request_A "o1" shop).
    exact shop_stock_ok.
  - apply (proj1 (proj2 (createOrder_scalar_stock None request_short "o1" shop))
             [line "p1" 100 3] (line "p2" 50 3) [] shop_less_3
             "p2" (scalar_product "Cap" 2));
      [reflexivity | reflexivity | vm_compute; reflexivity | reflexivity
      | vm_compute; reflexivity | reflexivity | vm_compute; reflexivity].
  - apply (proj2 (proj2 (createOrder_scalar_stock None request_A "o1" shop))
             (new_order None request_A) None
             (run (createOrder None request_A "o1") shop).2
             eq_refl "p1" (scalar_product "Shirt" 5));
      [vm_compute; reflexivity | reflexivity].
Defined.

(** C1, taken by the letter, fails: an item with quantity 0 takes one unit
    from the counter, so the counter does not drop by the sum of the
    quantities the items state.  The order below is created, the items of
    product [p1] state a quantity of 0 in all, and the counter goes from 5
    to 4. *)
Lemma createOrder_stock_not_stated_qty :
  (run (createOrder None request_zero "o1") shop).1
    = Success (DOrder (new_order None request_zero)) None ∧
  stock <$> products shop !! "p1" = Some 5 ∧
  quantity_sum "p1" (b_items request_zero) = 0 ∧
  stock <$> products (run (createOrder None request_zero "o1") shop).2 !! "p1"
    = Some 4 ∧
  stock <$> products (run (createOrder None request_zero "o1") shop).2 !! "p1"
    ≠ Some (5 - quantity_sum "p1" (b_items request_zero)).
Proof. vm_compute. repeat split; discriminate. Qed.

(** C2.  When the inventory loop refuses the k-th line item, order creation
    answers with that stock refusal and leaves the database exactly as the
    first k-1 items left it: their decrements stay (every scalar counter
    has dropped by what those items took from it) and no order is
    stored. *)
Theorem createOrder_no_rollback user body newId db pre item post db1 r db2 :
  validates (new_order user body) = true →
  b_items body = (pre ++ item :: post)%list →
  for_each reserve pre db = (inr tt, db1) →
  reserve item db1 = (inl r, db2) →
  run (createOrder user body newId) db = (r, db1) ∧
  (∃ msg id n, r = OutOfStock msg id n) ∧
  orders db1 = orders db ∧
  (∀ pid p,
     products db !! pid = Some p → trackInventoryBySize p = false →
     ∃ p', products db1 !! pid = Some p' ∧ stock p' = stock p - demand pid pre).
Proof.
  intros Hv Hitems Hpre Hitem.
  pose proof (reserve_frame _ _ _ _ Hitem) as (_&_&_&_&F).
  destruct (F r eq_refl) as [-> Hr].
  repeat split; [|done| |].
  - rewrite createOrder_run by done.
    rewrite Hitems, (for_each_app _ _ _ _ _ Hpre). simpl.
    by rewrite (bind_inl _ _ _ _ _ Hitem).
  - by apply for_each_reserve_frame in Hpre as (?&_).
  - intros pid p Hp Ht.
    destruct (for_each_reserve_scalar _ _ _ _ _ Hpre Hp Ht) as (p1&?&_&_&?).
    by exists p1.
Qed.

(** The theorem on an order of two items whose second item is refused: the
    three shirts stay taken. *)
Lemma createOrder_no_rollback_witness :
  run (createOrder None request_short "o1") shop =
    (OutOfStock "Insufficient stock for Cap" "p2" 2, shop_less_3) ∧
  orders shop_less_3 = orders shop ∧
  ∃ p', products shop_less_3 !! "p1" = Some p' ∧ stock p' = 5 - 3.
Proof.
  destruct (createOrder_no_rollback None request_short "o1" shop
              [line "p1" 100 3] (line "p2" 50 3) [] shop_less_3
              (OutOfStock "Insufficient stock for Cap" "p2" 2) shop_less_3)
    as (Hrun & _ & Horders & Hstock);
    [reflexivity | reflexivity | vm_compute; reflexivity
    | vm_compute; reflexivity |].
  split; [exact Hrun|]. split; [exact Horders|].
  apply (Hstock "p1" (scalar_product "Shirt" 5)); [vm_compute|]; reflexivity.
Defined.

(** C3.  The total stored with a created order is the total the request
    declares when that is a positive number, and otherwise the sum over the
    line items of price times quantity, minus the order's discount, plus
    its shipping and its tax.  Order creation records no discount, shipping
    or tax on the order; a missing amount counts as the 0 the pages show
    for it. *)
Theorem createOrder_total user body newId db doc msg db' :
  run (createOrder user body newId) db = (Success (DOrder doc) msg, db') →
  orders db' !! newId = Some doc ∧
  items doc = b_items body ∧
  total doc =
    match declared_total (b_total body) with
    | Some t => t
    | None =>
        line_sum (items doc)
        - or_num (discount doc) 0 + or_num (shipping doc) 0 + or_num (tax doc) 0
    end ∧
  discount doc = None ∧ shipping doc = None ∧ tax doc = None.
Proof.
  intros H. apply createOrder_success_inv in H as (_&->&db1&_&->).
  split; [apply lookup_insert_eq|]. split; [done|]. split; [|done].
  cbn -[computed line_sum]. unfold order_total, declared_total.
  destruct (b_total body) as [| |b|t|s]; rewrite ?computed_line_sum; try lia.
  destruct (decide (0 < t)); lia.
Qed.

Lemma createOrder_total_witness :
  orders (run (createOrder None request_A "o1") shop).2 !! "o1"
    = Some (new_order None request_A) ∧
  items (new_order None request_A) = b_items request_A ∧
  total (new_order None request_A)
    = 3 * 100 + 1 * 50
      - or_num (discount (new_order None request_A)) 0
      + or_num (shipping (new_order None request_A)) 0
      + or_num (tax (new_order None request_A)) 0 ∧
  discount (new_order None request_A) = None ∧
  shipping (new_order None request_A) = None ∧
  tax (new_order None request_A) = None.
Proof.
  apply (createOrder_total None request_A "o1" shop
           (new_order None request_A) None
           (run (createOrder None request_A "o1") shop).2).
  vm_compute. reflexivity.
Defined.

(** A declared total is taken as it comes when it is a positive number, and
    only then. *)
Example declared_total_used :
  let body l v :=
    {| b_name := None; b_phone := None; b_address := None;
       b_city := Some "Pune"; b_state := Some "MH"; b_pincode := Some "411001";
       b_customer := None; b_items := l; b_total := v;
       b_paymentMethod := None; b_payment := None; b_status := None;
       b_upi := None |} in
  total (new_order None (body [line "p1" 100 3] (JNum 1))) = 1 ∧
  total (new_order None (body [line "p1" 100 3] (JNum 0))) = 300 ∧
  total (new_order None (body [line "p1" 100 3] (JNum (-5)))) = 300 ∧
  total (new_order None (body [line "p1" 100 3] (JStr "1"))) = 300.
Proof. vm_compute. done. Qed.

(** ** Lifecycle transitions *)

Lemma find_order_found id message db o :
  orders db !! id = Some o → find_order id message db = (inr o, db).
Proof. intros H. unfold find_order. unfold_handler. by rewrite H. Qed.

Lemma trim_empty_string : trim "" = "".
Proof. reflexivity. Qed.

(** A reason that is given survives the truthiness test as it is. *)
Lemma reason_given_or_str reason :
  reason_given reason ↔ ∃ r, or_str reason None = Some r ∧ trim r ≠ "".
Proof.
  unfold reason_given. split.
  - intros (r&->&Hr). exists r. split; [|done]. simpl.
    destruct (decide (r = "")) as [->|]; [by rewrite trim_empty_string in Hr|done].
  - intros (r&Hr&Ht). exists r. split; [|done].
    destruct reason as [s|]; simpl in Hr; [|done].
    by destruct (decide (s = "")); simplify_eq.
Qed.

(** The handlers compare [String(order.userId)] with the actor's id; for an
    actor id other than the text [undefined] that is ownership. *)
Lemma owns_String_of user o :
  actor_id user ≠ "undefined" →
  String_of (userId o) = actor_id user ↔ owns user o.
Proof.
  intros Hu. unfold owns, String_of. destruct (userId o) as [u|]; split;
    intros H; simplify_eq; done.
Qed.

(** What is left of a handler once the order is saved: mail, then the
    answer.  Only the outbox can still change. *)
Ltac finish_handler :=
  unfold_handler; simpl;
  repeat match goal with
         | |- context [or_str (mbind ?f ?a) None] =>
             destruct (or_str (mbind f a) None); simpl
         end;
  eauto 10.

(** C5.  For an order that exists, [approveReturn] and [rejectReturn] go
    through only when its [returnStatus] is [Pending]: then the stored order
    gets [returnStatus] [Approved], respectively [Rejected] (with the
    rejection reason, when one is given); otherwise the answer is the 400
    "Return request is not pending" and the database is unchanged. *)
Theorem approve_reject_only_when_pending id reason db o :
  orders db !! id = Some o →
  (returnStatus o = Some "Pending" →
     (∃ db', run (approveReturn id) db =
               (Success (DOrder (set_returnStatus "Approved" o))
                  (Some "Return request approved"), db') ∧
             orders db' = <[id := set_returnStatus "Approved" o]> (orders db) ∧
             returnStatus (set_returnStatus "Approved" o) = Some "Approved" ∧
             status (set_returnStatus "Approved" o) = status o ∧
             returnReason (set_returnStatus "Approved" o) = returnReason o ∧
             items (set_returnStatus "Approved" o) = items o ∧
             total (set_returnStatus "Approved" o) = total o ∧
             userId (set_returnStatus "Approved" o) = userId o ∧
             products db' = products db) ∧
     (∃ db', run (rejectReturn id reason) db =
               (Success (DOrder (assign_if reason set_rejectionReason
                                   (set_returnStatus "Rejected" o)))
                  (Some "Return request rejected"), db') ∧
             orders db' = <[id := assign_if reason set_rejectionReason
                                    (set_returnStatus "Rejected" o)]> (orders db) ∧
             returnStatus (assign_if reason set_rejectionReason
                             (set_returnStatus "Rejected" o)) = Some "Rejected" ∧
             rejectionReason (assign_if reason set_rejectionReason
                                (set_returnStatus "Rejected" o))
               = match or_str reason None with
                 | Some r => Some r
                 | None => rejectionReason o
                 end ∧
             status (assign_if reason set_rejectionReason
                       (set_returnStatus "Rejected" o)) = status o ∧
             returnReason (assign_if reason set_rejectionReason
                             (set_returnStatus "Rejected" o)) = returnReason o ∧
             items (assign_if reason set_rejectionReason
                      (set_returnStatus "Rejected" o)) = items o ∧
             total (assign_if reason set_rejectionReason
                      (set_returnStatus "Rejected" o)) = total o ∧
             userId (assign_if reason set_rejectionReason
                       (set_returnStatus "Rejected" o)) = userId o ∧
             products db' = products db)) ∧
  (returnStatus o ≠ Some "Pending" →
     run (approveReturn id) db = (Failure 400 "Return request is not pending", db) ∧
     run (rejectReturn id reason) db
       = (Failure 400 "Return request is not pending", db)).
Proof.
  intros Ho. split.
  - intros Hp.
    assert (bool_decide (returnStatus o ≠ Some "Pending") = false) as Hb.
    { apply bool_decide_eq_false_2. tauto. }
    split.
    + unfold approveReturn, run.
      rewrite (bind_inr _ _ _ _ _ (find_order_found id _ db o Ho)).
      rewrite Hb. finish_handler.
    + unfold rejectReturn, run.
      rewrite (bind_inr _ _ _ _ _ (find_order_found id _ db o Ho)).
      rewrite Hb.
      assert (returnStatus (assign_if reason set_rejectionReason
                (set_returnStatus "Rejected" o)) = Some "Rejected") as Hrs.
      { unfold assign_if. by destruct (or_str reason None). }
      assert (rejectionReason (assign_if reason set_rejectionReason
                                 (set_returnStatus "Rejected" o))
              = match or_str reason None with
                | Some r => Some r
                | None => rejectionReason o
                end) as Hrr.
      { unfold assign_if. by destruct (or_str reason None). }
      assert (∀ A (f : Order → A),
                (∀ r x, f (set_rejectionReason r x) = f x) →
                f (assign_if reason set_rejectionReason
                     (set_returnStatus "Rejected" o))
                = f (set_returnStatus "Rejected" o)) as Hkeep.
      { intros A f Hf. unfold assign_if. by destruct (or_str reason None). }
      pose proof (Hkeep _ status (λ _ _, eq_refl)) as Hst.
      pose proof (Hkeep _ returnReason (λ _ _, eq_refl)) as Hre.
      pose proof (Hkeep _ items (λ _ _, eq_refl)) as Hit.
      pose proof (Hkeep _ total (λ _ _, eq_refl)) as Hto.
      pose proof (Hkeep _ userId (λ _ _, eq_refl)) as Hus.
      change (status (set_returnStatus "Rejected" o)) with (status o) in Hst.
      change (returnReason (set_returnStatus "Rejected" o))
        with (returnReason o) in Hre.
      change (items (set_returnStatus "Rejected" o)) with (items o) in Hit.
      change (total (set_returnStatus "Rejected" o)) with (total o) in Hto.
      change (userId (set_returnStatus "Rejected" o)) with (userId o) in Hus.
      clear Hkeep.
      unfold_handler; simpl;
        repeat match goal with
               | |- context [or_str (mbind ?f ?a) None] =>
                   destruct (or_str (mbind f a) None); simpl
               end;
        (eexists; repeat split; first [done|eassumption]).
  - intros Hp. split.
    + unfold approveReturn, run.
      rewrite (bind_inr _ _ _ _ _ (find_order_found id _ db o Ho)).
      unfold_handler. by rewrite bool_decide_eq_true_2.
    + unfold rejectReturn, run.
      rewrite (bind_inr _ _ _ _ _ (find_order_found id _ db o Ho)).
      unfold_handler. by rewrite bool_decide_eq_true_2.
Qed.

Lemma approve_reject_only_when_pending_witness :
  (∃ db', run (approveReturn "o1")
            (db_with (sample_order "delivered" (Some "Pending"))) =
            (Success (DOrder (set_returnStatus "Approved"
                                (sample_order "delivered" (Some "Pending"))))
               (Some "Return request approved"), db') ∧
          orders db' = <["o1" := set_returnStatus "Approved"
                                   (sample_order "delivered" (Some "Pending"))]>
                         (orders (db_with (sample_order "delivered" (Some "Pending")))) ∧
          returnStatus (set_returnStatus "Approved"
                          (sample_order "delivered" (Some "Pending")))
            = Some "Approved" ∧
          status (set_returnStatus "Approved"
                    (sample_order "delivered" (Some "Pending")))
            = status (sample_order "delivered" (Some "Pending")) ∧
          returnReason (set_returnStatus "Approved"
                          (sample_order "delivered" (Some "Pending")))
            = returnReason (sample_order "delivered" (Some "Pending")) ∧
          items (set_returnStatus "Approved"
                   (sample_order "delivered" (Some "Pending")))
            = items (sample_order "delivered" (Some "Pending")) ∧
          total (set_returnStatus "Approved"
                   (sample_order "delivered" (Some "Pending")))
            = total (sample_order "delivered" (Some "Pending")) ∧
          userId (set_returnStatus "Approved"
                    (sample_order "delivered" (Some "Pending")))
            = userId (sample_order "delivered" (Some "Pending")) ∧
          products db' = products (db_with (sample_order "delivered" (Some "Pending")))) ∧
  run (rejectReturn "o1" (Some "used"))
      (db_with (sample_order "delivered" (Some "Approved")))
    = (Failure 400 "Return request is not pending",
       db_with (sample_order "delivered" (Some "Approved"))).
Proof.
  split.
  - apply (proj1 (approve_reject_only_when_pending "o1" None
             (db_with (sample_order "delivered" (Some "Pending")))
             (sample_order "delivered" (Some "Pending"))
             ltac:(vm_compute; reflexivity))).
    reflexivity.
  - apply (proj2 (approve_reject_only_when_pending "o1" (Some "used")
             (db_with (sample_order "delivered" (Some "Approved")))
             (sample_order "delivered" (Some "Approved"))
             ltac:(vm_compute; reflexivity))).
    simpl. discriminate.
Defined.

Lemma reason_given_dec reason : reason_given reason ∨ ¬ reason_given reason.
Proof.
  unfold reason_given. destruct reason as [r|].
  - destruct (decide (trim r = "")) as [He|Hne].
    + right. intros (?&?&?). by simplify_eq.
    + left. eauto.
  - right. by intros (?&?&?).
Qed.



(** C4 at the failing input (scenario C).  A delivered order whose return
    has been approved: a further [requestReturn] by its owner is accepted
    and puts [returnStatus] back to [Pending]. *)
Theorem requestReturn_after_approval :
  let db0 := db_with (sample_order "delivered" None) in
  let db1 := (run (requestReturn asha "o1" (Some "damaged")) db0).2 in
  let db2 := (run (approveReturn "o1") db1).2 in
  let r3 := run (requestReturn asha "o1" (Some "damaged")) db2 in
  returnStatus <$> orders db1 !! "o1" = Some (Some "Pending") ∧
  returnStatus <$> orders db2 !! "o1" = Some (Some "Approved") ∧
  (∃ o', r3.1 = Success (DOrder o') (Some "Return request submitted")) ∧
  returnStatus <$> orders r3.2 !! "o1" = Some (Some "Pending").
Proof. vm_compute. eauto. Qed.

(** Whatever the return sub-state of a delivered order, its owner's request
    with a reason is accepted: [requestReturn] never looks at
    [returnStatus]. *)
Lemma requestReturn_ignores_returnStatus user id r db o :
  orders db !! id = Some o → actor_id user ≠ "undefined" →
  trim r ≠ "" → owns user o → status o = "delivered" →
  ∃ o', run (requestReturn user id (Some r)) db
          = (Success (DOrder o') (Some "Return request submitted"),
             with_orders (<[id := o']> (orders db)) db) ∧
        returnStatus o' = Some "Pending".
Proof.
  intros Ho Hu Ht Hown Hst.
  exists (set_returnStatus "Pending" (set_returnReason (trim r) o)).
  split; [|reflexivity].
  unfold requestReturn, run.
  assert (or_str (Some r) None = Some r) as ->.
  { simpl. destruct (decide (r = "")) as [->|]; [|done].
    by rewrite trim_empty_string in Ht. }
  unfold reject_if at 1. rewrite bool_decide_eq_false_2 by done.
  unfold bind at 1. unfold ret at 1.
  rewrite (bind_inr _ _ _ _ _ (find_order_found id _ db o Ho)).
  unfold_handler.
  rewrite bool_decide_eq_false_2 by (rewrite owns_String_of by done; tauto).
  by rewrite bool_decide_eq_false_2 by tauto.
Qed.

Lemma cancelled_fields reason o :
  status (cancelled reason o) = "cancelled" ∧
  cancellationReason (cancelled reason o) =
    match or_str reason None with
    | Some r => Some r
    | None => cancellationReason o
    end ∧
  returnStatus (cancelled reason o) = returnStatus o ∧
  items (cancelled reason o) = items o ∧ total (cancelled reason o) = total o.
Proof. unfold cancelled, assign_if. by destruct (or_str reason None). Qed.



(** Scenario E: cancelling a shipped order is refused. *)
Example scenario_E :
  run (cancel asha "o1" None) (db_with (sample_order "shipped" None))
    = (Failure 400 "Order cannot be cancelled in current status",
       db_with (sample_order "shipped" None)).
Proof. vm_compute. reflexivity. Qed.

Lemma includes_nonempty l s :
  includes l s = true → "" ∉ l → or_str (Some s) None = Some s.
Proof.
  intros Hin Hl. simpl. destruct (decide (s = "")) as [->|]; [|done].
  by apply includes_elem_of in Hin.
Qed.

Lemma ALLOWED_STATUSES_nonempty : "" ∉ ALLOWED_STATUSES.
Proof. intros H%includes_elem_of. discriminate H. Qed.

Lemma RETURN_STATUSES_nonempty : "" ∉ RETURN_STATUSES.
Proof. intros H%includes_elem_of. discriminate H. Qed.

(** C9.  For an order that exists, [setStatus] with a status among
    [pending], [paid], [shipped], [delivered], [cancelled] stores it,
    whatever the status was before; with anything else it answers 400
    ("Invalid status", or "Missing status" when the status is missing or
    empty) and changes nothing. *)
Theorem setStatus_spec id newStatus db o :
  orders db !! id = Some o →
  (∀ s, newStatus = Some s → s ∈ ALLOWED_STATUSES →
     ∃ db', run (setStatus id newStatus) db
              = (Success (DOrder (set_status s o)) None, db') ∧
            orders db' = <[id := set_status s o]> (orders db) ∧
            status (set_status s o) = s ∧
            returnStatus (set_status s o) = returnStatus o ∧
            items (set_status s o) = items o ∧
            total (set_status s o) = total o ∧
            userId (set_status s o) = userId o ∧
            products db' = products db) ∧
  ((∀ s, newStatus = Some s → s ∉ ALLOWED_STATUSES) →
     ∃ msg, run (setStatus id newStatus) db = (Failure 400 msg, db) ∧
            (msg = "Invalid status" ∨
             msg = "Missing status" ∧ or_str newStatus None = None)).
Proof.
  intros Ho. split.
  - intros s -> Hs. apply includes_elem_of in Hs.
    unfold setStatus, run.
    rewrite (includes_nonempty _ _ Hs ALLOWED_STATUSES_nonempty), Hs.
    unfold reject_if at 1. unfold negb at 1.
    unfold bind at 1. unfold ret at 1.
    rewrite (bind_inr _ _ _ _ _ (find_order_found id _ db o Ho)).
    unfold_handler. simpl.
    destruct (or_str (userId o ≫= λ u, users db !! u ≫= email) None); simpl;
      [destruct (_ && _); simpl|]; eauto 10.
  - intros Hout. unfold setStatus, run.
    destruct (or_str newStatus None) as [s|] eqn:Es; cycle 1.
    { exists "Missing status". split; [done|]. right. done. }
    exists "Invalid status". split; [|by left].
    assert (includes ALLOWED_STATUSES s = false) as Hs.
    { apply not_true_is_false. intros Hin%includes_elem_of.
      destruct newStatus as [s'|]; simpl in Es; [|done].
      destruct (decide (s' = "")); simplify_eq. by eapply Hout. }
    unfold_handler. by rewrite Hs.
Qed.

Lemma setStatus_spec_witness :
  (∃ db', run (setStatus "o1" (Some "pending"))
            (db_with (sample_order "delivered" None))
          = (Success (DOrder (set_status "pending" (sample_order "delivered" None)))
               None, db') ∧
          orders db' = <["o1" := set_status "pending" (sample_order "delivered" None)]>
                         (orders (db_with (sample_order "delivered" None))) ∧
          status (set_status "pending" (sample_order "delivered" None)) = "pending" ∧
          returnStatus (set_status "pending" (sample_order "delivered" None))
            = returnStatus (sample_order "delivered" None) ∧
          items (set_status "pending" (sample_order "delivered" None))
            = items (sample_order "delivered" None) ∧
          total (set_status "pending" (sample_order "delivered" None))
            = total (sample_order "delivered" None) ∧
          userId (set_status "pending" (sample_order "delivered" None))
            = userId (sample_order "delivered" None) ∧
          products db' = products (db_with (sample_order "delivered" None))) ∧
  ∃ msg, run (setStatus "o1" (Some "refunded"))
           (db_with (sample_order "delivered" None))
         = (Failure 400 msg, db_with (sample_order "delivered" None)) ∧
         (msg = "Invalid status" ∨
          msg = "Missing status" ∧ or_str (Some "refunded") None = None).
Proof.
  split.
  - apply (proj1 (setStatus_spec "o1" (Some "pending")
                    (db_with (sample_order "delivered" None))
                    (sample_order "delivered" None)
                    ltac:(vm_compute; reflexivity)) "pending" eq_refl).
    apply includes_elem_of. reflexivity.
  - apply (proj2 (setStatus_spec "o1" (Some "refunded")
                    (db_with (sample_order "delivered" None))
                    (sample_order "delivered" None)
                    ltac:(vm_compute; reflexivity))).
    intros s Hs Hin%includes_elem_of.
    injection Hs as <-. discriminate Hin.
Defined.

(** C10.  For an order that exists, the admin update with a [returnStatus]
    among [None], [Pending], [Approved], [Rejected] stores that value,
    whatever the order's status and whatever its return sub-state were:
    neither the delivered-only guard of [requestReturn] nor the
    Pending-only guard of [approveReturn] and [rejectReturn] applies. *)
Theorem adminUpdate_sets_returnStatus id newStatus trackingNo r db o :
  orders db !! id = Some o →
  r ∈ RETURN_STATUSES →
  ∃ o' db', run (adminUpdate id newStatus trackingNo (Some r)) db
              = (Success (DOrder o') (Some "Order updated successfully"), db') ∧
            orders db' !! id = Some o' ∧
            returnStatus o' = Some r.
Proof.
  intros Ho Hr. apply includes_elem_of in Hr.
  unfold adminUpdate, run.
  rewrite (bind_inr _ _ _ _ _ (find_order_found id _ db o Ho)).
  rewrite (includes_nonempty _ _ Hr RETURN_STATUSES_nonempty), Hr.
  unfold_handler. simpl.
  repeat match goal with
         | |- context [match ?t with _ => _ end] =>
             lazymatch t with
             | context [match _ with _ => _ end] => fail
             | _ => destruct t eqn:?; simpl
             end
         end;
  eexists _, _; (split; [reflexivity|]); simpl;
  by rewrite lookup_insert_eq.
Qed.

Lemma adminUpdate_sets_returnStatus_witness :
  ∃ o' db', run (adminUpdate "o1" None None (Some "Approved"))
              (db_with (sample_order "pending" None))
            = (Success (DOrder o') (Some "Order updated successfully"), db') ∧
            orders db' !! "o1" = Some o' ∧
            returnStatus o' = Some "Approved".
Proof.
  apply (adminUpdate_sets_returnStatus "o1" None None "Approved"
           (db_with (sample_order "pending" None))
           (sample_order "pending" None)).
  - vm_compute. reflexivity.
  - apply includes_elem_of. reflexivity.
Defined.

(** ** Invoice issuer *)

(** Scenario D: two requests for the same order on the same day. *)
Example scenario_D :
  let r1 := run (generateInvoice 0 nov1_0430 "i1" (Some "o1")) two_orders in
  let r2 := run (generateInvoice 0 nov1_0900 "i2" (Some "o1")) r1.2 in
  r1.1 = Success (DInvoice "i1" "INV-20261101-0001") None ∧
  r2.1 = Success (DInvoice "i1" "INV-20261101-0001") None ∧
  r2.2 = r1.2 ∧ length (invoices r2.2) = 1%nat.
Proof. vm_compute. done. Qed.

Lemma findOne_None orderId l :
  findOne orderId l = None → orderId ∉ inv_orderId <$> l.
Proof.
  unfold findOne. induction l as [|x l IH]; simpl.
  - intros _. apply not_elem_of_nil.
  - destruct (bool_decide (inv_orderId x = orderId)) eqn:E; [done|].
    apply bool_decide_eq_false in E. intros H%IH.
    apply not_elem_of_cons. split; [congruence|done].
Qed.

Lemma findOne_app_new orderId l i :
  findOne orderId l = None → inv_orderId i = orderId →
  findOne orderId (l ++ [i]) = Some i.
Proof.
  unfold findOne. intros Hnone Hi. induction l as [|x l IH]; simpl in *.
  - by rewrite bool_decide_eq_true_2.
  - destruct (bool_decide (inv_orderId x = orderId)); [done|]. by apply IH.
Qed.

(** What the issuer does for an order that exists, by cases on whether the
    order has an invoice already. *)
Lemma generateInvoice_run tz now newId orderId db o :
  orderId ≠ "" → orders db !! orderId = Some o →
  run (generateInvoice tz now newId (Some orderId)) db =
    match findOne orderId (invoices db) with
    | Some i => (Success (DInvoice (inv_id i) (invoiceNo i)) None, db)
    | None =>
        let i := {| inv_id := newId; inv_orderId := orderId;
                    invoiceNo := make_invoiceNo (dateStr now)
                                   (countToday tz now (invoices db));
                    issuedAt := now; inv_status := "issued"; createdAt := now |} in
        (Success (DInvoice newId (invoiceNo i)) None,
         with_orders (<[orderId := set_invoiceId newId o]> (orders db))
           (with_invoices (invoices db ++ [i]) db))
    end.
Proof.
  intros Hne Ho. unfold generateInvoice, run.
  assert (or_str (Some orderId) None = Some orderId) as ->.
  { simpl. by destruct (decide (orderId = "")). }
  rewrite (bind_inr _ _ _ _ _ (find_order_found orderId _ db o Ho)).
  unfold_handler. by destruct (findOne orderId (invoices db)).
Qed.


(** A first request adds exactly one invoice, numbered with the UTC date of
    the clock reading and one more than the number of invoices created
    within the server-local day of that reading. *)
Lemma generateInvoice_new tz now newId orderId db o :
  orderId ≠ "" → orders db !! orderId = Some o →
  findOne orderId (invoices db) = None →
  ∃ db1 i,
    run (generateInvoice tz now newId (Some orderId)) db
      = (Success (DInvoice newId (invoiceNo i)) None, db1) ∧
    invoices db1 = (invoices db ++ [i])%list ∧
    invoiceNo i = "INV-" +:+ dateStr now +:+ "-"
                  +:+ padStart 4 zero (String_of_num (countToday tz now (invoices db) + 1)).
Proof.
  intros Hne Ho Hf. rewrite (generateInvoice_run _ _ _ _ _ o) by done.
  rewrite Hf. eauto.
Qed.

(** Issuing never gives an order a second invoice. *)
Lemma generateInvoice_one_per_order tz now newId orderId db o :
  orderId ≠ "" → orders db !! orderId = Some o →
  one_invoice_per_order (invoices db) →
  one_invoice_per_order
    (invoices (run (generateInvoice tz now newId (Some orderId)) db).2).
Proof.
  intros Hne Ho Hnd. rewrite (generateInvoice_run _ _ _ _ _ o) by done.
  destruct (findOne orderId (invoices db)) as [inv|] eqn:Hf; [done|].
  simpl. unfold one_invoice_per_order in *.
  rewrite fmap_app. apply NoDup_app. split; [done|]. split.
  - intros x Hx [->|[]%elem_of_nil]%elem_of_cons.
    by apply findOne_None in Hf.
  - apply NoDup_singleton.
Qed.

(** C7 at the failing input.  A server in Asia/Kolkata issues the first
    invoice of 1 November at 10:00 local time (04:30 UTC), and an invoice
    for another order at 01:00 local time on 2 November (19:30 UTC on
    1 November).  Both get the number INV-20261101-0001: the date is the
    UTC date, the count is taken over the local day.  On the day the number
    names one invoice had been issued already. *)
Theorem generateInvoice_duplicate_number :
  let r1 := run (generateInvoice kolkata nov1_0430 "i1" (Some "o1")) two_orders in
  let r2 := run (generateInvoice kolkata nov1_1930 "i2" (Some "o2")) r1.2 in
  r1.1 = Success (DInvoice "i1" "INV-20261101-0001") None ∧
  r2.1 = Success (DInvoice "i2" "INV-20261101-0001") None ∧
  dateStr nov1_1930 = "20261101" ∧
  issued_on_day_of nov1_1930 (invoices r1.2) = 1 ∧
  localDate kolkata nov1_1930 = (2026, 11, 2) ∧
  issued_on_local_day_of kolkata nov1_1930 (invoices r1.2) = 0 ∧
  length (invoices r2.2) = 2%nat.
Proof. vm_compute. done. Qed.

(** ** The calendar arithmetic *)

Lemma days_from_civil_next y m d :
  days_from_civil y m (d + 1) = days_from_civil y m d + 1.
Proof. unfold days_from_civil. cbv zeta. lia. Qed.

(** Within a 400-year cycle the year the conversion picks is the right one:
    the day falls within it. *)
Lemma year_of_era_bounds doe :
  0 ≤ doe < 146097 →
  let yoe := (doe - doe / 1460 + doe / 36524 - doe / 146096) / 365 in
  0 ≤ yoe ≤ 399 ∧ 0 ≤ doe - (365 * yoe + yoe / 4 - yoe / 100) ≤ 365.
Proof. intros H yoe. subst yoe. Z.div_mod_to_equations. lia. Qed.

(** The two conversions are inverse to each other: every day number is the
    day number of its calendar date. *)
Lemma days_from_civil_from_days z :
  let '(y, m, d) := civil_from_days z in days_from_civil y m d = z.
Proof.
  unfold civil_from_days. cbv zeta.
  set (z' := z + 719468). set (era := z' / 146097).
  set (doe := z' - era * 146097).
  assert (0 ≤ doe < 146097) as Hdoe.
  { unfold doe, era. pose proof (Z.div_mod z' 146097 ltac:(lia)).
    pose proof (Z.mod_pos_bound z' 146097 ltac:(lia)). lia. }
  pose proof (year_of_era_bounds doe Hdoe) as [Hyoe Hdoy]. cbv zeta in Hyoe, Hdoy.
  set (yoe := (doe - doe / 1460 + doe / 36524 - doe / 146096) / 365) in *.
  set (doy := doe - (365 * yoe + yoe / 4 - yoe / 100)) in *.
  set (mp := (5 * doy + 2) / 153).
  assert (0 ≤ mp ≤ 11) as Hmp by (unfold mp; Z.div_mod_to_equations; lia).
  assert ((yoe + era * 400) / 400 = era) as Hera.
  { rewrite Z.div_add by lia. rewrite Z.div_small by lia. lia. }
  unfold days_from_civil. cbv zeta.
  destruct (mp <? 10) eqn:E1; [apply Z.ltb_lt in E1 | apply Z.ltb_ge in E1].
  - (* March to December *)
    rewrite (proj2 (Z.leb_gt (mp + 3) 2)) by lia.
    rewrite (proj2 (Z.ltb_lt 2 (mp + 3))) by lia.
    rewrite Hera. replace (mp + 3 - 3) with mp by lia.
    replace (yoe + era * 400 - era * 400) with yoe by lia.
    fold doy. unfold doy, doe, z'. lia.
  - (* January and February, counted with the year before *)
    rewrite (proj2 (Z.leb_le (mp - 9) 2)) by lia.
    rewrite (proj2 (Z.ltb_ge 2 (mp - 9))) by lia.
    replace (yoe + era * 400 + 1 - 1) with (yoe + era * 400) by lia.
    rewrite Hera. replace (mp - 9 + 9) with mp by lia.
    replace (yoe + era * 400 - era * 400) with yoe by lia.
    unfold doy, doe, z'. lia.
Qed.

Lemma civil_from_days_inj z1 z2 :
  civil_from_days z1 = civil_from_days z2 → z1 = z2.
Proof.
  intros H. pose proof (days_from_civil_from_days z1) as H1.
  pose proof (days_from_civil_from_days z2) as H2.
  rewrite H in H1. destruct (civil_from_days z2) as [[y m] d]. congruence.
Qed.

(** On a server running in UTC the invoices counted are those issued on the
    calendar day that the number names. *)
Lemma countToday_utc now l : countToday 0 now l = issued_on_day_of now l.
Proof.
  unfold countToday, issued_on_day_of, countDocuments, localDate, utcDate.
  replace (now + 0 * msPerMinute) with now by lia.
  pose proof (days_from_civil_from_days (now / msPerDay)) as Hrt.
  destruct (civil_from_days (now / msPerDay)) as [[y m] d] eqn:Hc.
  unfold Date_local. rewrite days_from_civil_next, Hrt.
  f_equal. f_equal. apply list_filter_iff. intros i.
  rewrite <- Hc. split.
  - intros [H1 H2]. f_equal. unfold msPerDay, msPerMinute in *.
    revert H1 H2. generalize (now / 86400000). intros q H1 H2.
    symmetry. apply Z.div_unique with (r := createdAt i - q * 86400000); lia.
  - intros H%civil_from_days_inj. unfold msPerDay, msPerMinute in *.
    rewrite <- H.
    pose proof (Z.div_mod (createdAt i) 86400000 ltac:(lia)) as Hdm.
    pose proof (Z.mod_pos_bound (createdAt i) 86400000 ltac:(lia)) as Hb.
    revert Hdm Hb.
    generalize (createdAt i / 86400000), (createdAt i mod 86400000). lia.
Qed.

(** ** The sequence part of an invoice number *)

Lemma all_from_spec P n z k :
  all_from P n z = true → z ≤ k < z + Z.of_nat n → P k = true.
Proof.
  revert z. induction n as [|n IH]; intros z H Hk; [lia|].
  simpl in H. apply andb_prop in H as [H1 H2].
  destruct (decide (k = z)) as [->|]; [done|].
  apply (IH (z + 1)); [done|lia].
Qed.

(** X30.  Up to the 9999th invoice of a day the sequence part has exactly
    four digits; the next one has five. *)
Lemma sequence_four_digits count :
  0 ≤ count < 9999 →
  String.length (padStart 4 zero (String_of_num (count + 1))) = 4%nat.
Proof.
  intros H.
  assert (all_from
            (λ c, (String.length (padStart 4 zero (String_of_num (c + 1))) =? 4)%nat)
            (Z.to_nat 9999) 0 = true) as Hall by (vm_compute; reflexivity).
  apply Nat.eqb_eq.
  apply (all_from_spec _ _ _ count Hall). rewrite Z2Nat.id; lia.
Qed.

Example sequence_overflow :
  make_invoiceNo "20261101" 9999 = "INV-20261101-10000".
Proof. reflexivity. Qed.

(** X18.  On a server running in UTC, then, a new invoice is numbered with
    the date of its day and one more than the number of invoices issued
    that day. *)
Lemma generateInvoice_number_utc now newId orderId db o :
  orderId ≠ "" → orders db !! orderId = Some o →
  findOne orderId (invoices db) = None →
  (run (generateInvoice 0 now newId (Some orderId)) db).1 =
    Success (DInvoice newId
               (make_invoiceNo (dateStr now) (issued_on_day_of now (invoices db))))
      None.
Proof.
  intros Hne Ho Hf. rewrite (generateInvoice_run _ _ _ _ _ o) by done.
  rewrite Hf. simpl. by rewrite countToday_utc.
Qed.

(** * Further properties *)

(** ** What the routes keep *)

#[local] Arguments includes : simpl never.

Ltac goal_matches :=
  repeat match goal with
         | |- context [match ?t with _ => _ end] =>
             lazymatch t with
             | context [match _ with _ => _ end] => fail
             | _ => destruct t eqn:?; simpl
             end
         end.

(** A request leaves the orders as they were, or stores one order, which is
    well formed if the one it replaces (when there is one) was. *)
Lemma serve_orders r db :
  orders (serve r db).2 = orders db ∨
  ∃ id o', orders (serve r db).2 = <[id := o']> (orders db) ∧
           ((∀ o, orders db !! id = Some o → well_formed_order o) →
            well_formed_order o').
Proof.
  destruct r; unfold serve, route.
  - (* createOrder *)
    destruct (validates (new_order user body)) eqn:Hv.
    + rewrite createOrder_run by done.
      destruct (for_each reserve (b_items body) db) as [[r|[]] db1] eqn:E;
        apply for_each_reserve_frame in E as (E&_); simpl; rewrite E; [by left|].
      right. eexists _, _. split; [done|]. intros _. split.
      * simpl. destruct (b_status body) as [s|]; [|by apply includes_elem_of].
        destruct (includes ALLOWED_STATUSES s) eqn:Hs;
          by apply includes_elem_of.
      * by intros r.
    + destruct (createOrder_invalid user body newId db Hv) as [m ->]. by left.
  - (* getOrder *)
    unfold getOrder. unfold_handler. simpl. goal_matches; by left.
  - (* setStatus *)
    unfold setStatus. unfold_handler. simpl.
    destruct (or_str newStatus None) as [s|]; [|by left].
    destruct (includes ALLOWED_STATUSES s) eqn:Hs; simpl; [|by left].
    destruct (orders db !! id) as [o|] eqn:Ho; simpl; [|by left].
    right. exists id, (set_status s o).
    split; [goal_matches; done|].
    intros H. destruct (H o Ho) as [_ Hr].
    split; [by apply includes_elem_of|exact Hr].
  - (* updateOrder *)
    unfold updateOrder. unfold_handler. simpl.
    destruct (or_str newStatus None) as [s|]; [|by left].
    destruct (includes ALLOWED_STATUSES (status_alias s)) eqn:Hs; simpl; [|by left].
    destruct (orders db !! id) as [o|] eqn:Ho; simpl; [|by left].
    right. exists id, (set_status (status_alias s) o). split; [done|].
    intros H. destruct (H o Ho) as [_ Hr].
    split; [by apply includes_elem_of|exact Hr].
  - (* cancel *)
    unfold cancel. unfold_handler. simpl.
    destruct (orders db !! id) as [o|] eqn:Ho; simpl; [|by left].
    destruct (_ && _); simpl; [by left|].
    destruct (negb _); simpl; [by left|].
    right. eexists _, _. split; [done|].
    intros H. destruct (H o Ho) as [_ Hr].
    fold (cancelled reason o). pose proof (cancelled_fields reason o) as (E1&_&E3&_).
    split; [rewrite E1; by apply includes_elem_of|by rewrite E3].
  - (* requestReturn *)
    unfold requestReturn. unfold_handler. simpl.
    destruct (or_str reason None) as [r|]; [|by left].
    destruct (bool_decide (trim r = "")); simpl; [by left|].
    destruct (orders db !! id) as [o|] eqn:Ho; simpl; [|by left].
    destruct (bool_decide (String_of (userId o) ≠ actor_id user)); simpl; [by left|].
    destruct (bool_decide (status o ≠ "delivered")); simpl; [by left|].
    right. exists id, (set_returnStatus "Pending" (set_returnReason (trim r) o)).
    split; [reflexivity|].
    intros H. destruct (H o Ho) as [Hs _]. split; [exact Hs|].
    simpl. intros r' [= <-]. by apply includes_elem_of.
  - (* adminUpdate *)
    unfold adminUpdate. unfold_handler. simpl.
    destruct (orders db !! id) as [o|] eqn:Ho; simpl; [|by left].
    right. exists id, (admin_updated newStatus trackingNo newReturnStatus o).
    split; [unfold admin_updated; goal_matches; reflexivity|].
    intros H. destruct (H o Ho) as [Hs Hr].
    unfold admin_updated, assign_if.
    destruct (or_str newStatus None) as [s|];
      [destruct (includes ALLOWED_STATUSES s) eqn:Es|];
      (destruct (or_str trackingNo None) as [t|]);
      (destruct (or_str newReturnStatus None) as [r|];
        [destruct (includes RETURN_STATUSES r) eqn:Er|]);
      (split; [first [exact Hs | by apply includes_elem_of]|]);
      first [exact Hr | simpl; intros r' [= <-]; by apply includes_elem_of].
  - (* approveReturn *)
    unfold approveReturn. unfold_handler. simpl.
    destruct (orders db !! id) as [o|] eqn:Ho; simpl; [|by left].
    destruct (bool_decide _); simpl; [by left|].
    right. exists id, (set_returnStatus "Approved" o).
    split; [goal_matches; reflexivity|].
    intros H. destruct (H o Ho) as [Hs _]. split; [exact Hs|].
    simpl. intros r' [= <-]. by apply includes_elem_of.
  - (* rejectReturn *)
    unfold rejectReturn. unfold_handler. simpl.
    destruct (orders db !! id) as [o|] eqn:Ho; simpl; [|by left].
    destruct (bool_decide _); simpl; [by left|].
    right. exists id, (assign_if reason set_rejectionReason
                         (set_returnStatus "Rejected" o)).
    split; [goal_matches; reflexivity|].
    intros H. destruct (H o Ho) as [Hs _].
    unfold assign_if. destruct (or_str reason None); (split; [exact Hs|]);
      simpl; intros r' [= <-]; by apply includes_elem_of.
  - (* generateInvoice *)
    unfold generateInvoice. unfold_handler. simpl.
    destruct (or_str orderId None) as [oid|]; [|by left].
    destruct (orders db !! oid) as [o|] eqn:Ho; simpl; [|by left].
    destruct (findOne oid (invoices db)); simpl; [by left|].
    right. eexists oid, _. split; [done|].
    intros H. exact (H o Ho).
Qed.

Lemma serve_well_formed r db :
  (∀ id o, orders db !! id = Some o → well_formed_order o) →
  ∀ id o, orders (serve r db).2 !! id = Some o → well_formed_order o.
Proof.
  intros Hdb id o. destruct (serve_orders r db) as [->|(id'&o'&->&Ho')]; [apply Hdb|].
  intros [[-> ->]|[_ ?]]%lookup_insert_Some; [|by eapply Hdb].
  apply Ho'. intros o0. apply Hdb.
Qed.

Lemma serve_all_well_formed rs db :
  (∀ id o, orders db !! id = Some o → well_formed_order o) →
  ∀ id o, orders (serve_all rs db) !! id = Some o → well_formed_order o.
Proof.
  revert db. induction rs as [|r rs IH]; intros db Hdb; [done|].
  simpl. apply IH. by apply serve_well_formed.
Qed.

(** X1.  Starting without orders, no sequence of requests to these routes
    stores an order whose status is outside [pending], [paid], [shipped],
    [delivered], [cancelled], or whose return sub-state is present and
    outside [None], [Pending], [Approved], [Rejected]. *)
Theorem stored_orders_well_formed rs ps us id o :
  orders (serve_all rs (fresh_db ps us)) !! id = Some o →
  status o ∈ ALLOWED_STATUSES ∧
  ∀ r, returnStatus o = Some r → r ∈ RETURN_STATUSES.
Proof.
  intros Ho. eapply serve_all_well_formed; [|exact Ho].
  intros id' o'. simpl. by rewrite lookup_empty.
Qed.

Lemma stored_orders_well_formed_witness :
  status (cancelled (Some "late") (new_order (Some asha) request_A))
    ∈ ALLOWED_STATUSES ∧
  ∀ r, returnStatus (cancelled (Some "late") (new_order (Some asha) request_A))
         = Some r → r ∈ RETURN_STATUSES.
Proof.
  apply (stored_orders_well_formed
           [CreateOrder (Some asha) request_A "o1";
            Cancel asha "o1" (Some "late")]
           (products shop) ∅ "o1").
  vm_compute. reflexivity.
Defined.

(** X2.  Of the three statuses [cancel] accepts, these routes store only
    [pending]: in a database they built up from no orders, a cancellation
    that goes through found the order in status [pending]. *)
Theorem cancel_only_pending rs ps us user id reason o' msg db' :
  run (cancel user id reason) (serve_all rs (fresh_db ps us))
    = (Success (DOrder o') msg, db') →
  ∃ o, orders (serve_all rs (fresh_db ps us)) !! id = Some o ∧
       status o = "pending".
Proof.
  set (db := serve_all rs (fresh_db ps us)). intros Hrun.
  unfold cancel in Hrun. unfold_handler.
  destruct (orders db !! id) as [o|] eqn:Ho; [|done].
  exists o. split; [done|].
  destruct (_ && _); [done|].
  destruct (includes cancellableStatuses (status o)) eqn:Hc; [|done].
  assert (well_formed_order o) as [Hs _].
  { eapply serve_all_well_formed; [|exact Ho].
    intros ??. simpl. by rewrite lookup_empty. }
  apply includes_elem_of in Hc.
  apply elem_of_cons in Hc as [?|Hc]; [done|].
  exfalso. apply includes_elem_of in Hs.
  apply elem_of_cons in Hc as [Hc|Hc];
    [|apply elem_of_cons in Hc as [Hc|Hc%elem_of_nil]; [|done]];
    rewrite Hc in Hs; discriminate Hs.
Qed.

Lemma cancel_only_pending_witness :
  ∃ o, orders (serve_all [CreateOrder (Some asha) request_A "o1"]
                 (fresh_db (products shop) ∅)) !! "o1" = Some o ∧
       status o = "pending".
Proof.
  apply (cancel_only_pending [CreateOrder (Some asha) request_A "o1"]
           (products shop) ∅ asha "o1" None
           (cancelled None (new_order (Some asha) request_A)) None
           (run (cancel asha "o1" None)
              (serve_all [CreateOrder (Some asha) request_A "o1"]
                 (fresh_db (products shop) ∅))).2).
  vm_compute. reflexivity.
Defined.

(** ** Inventory *)

Lemma elem_of_insert_inv {A} (l : list A) i x e :
  e ∈ <[i:=x]> l → e = x ∨ e ∈ l.
Proof.
  revert i. induction l as [|y l IH]; intros [|i]; simpl; try by right.
  - intros [->|?]%elem_of_cons; [by left|right; by right].
  - intros [->|H]%elem_of_cons; [right; by left|].
    destruct (IH _ H); [by left|right; by right].
Qed.

Lemma findIndex_lookup inv size i :
  findIndex inv size = Some i →
  ∃ e, inv !! i = Some e ∧ code e = size ∧
       ∀ j e', (j < i)%nat → inv !! j = Some e' → code e' ≠ size.
Proof.
  revert i. induction inv as [|x inv IH]; intros i; simpl; [done|].
  destruct (decide (code x = size)) as [Hx|Hx].
  - intros [= <-]. exists x. repeat split; [done|]. intros j e' Hj. lia.
  - destruct (findIndex inv size) as [i'|]; simpl; [|done].
    intros [= <-]. destruct (IH i' eq_refl) as (e&He&Hc&Hfirst).
    exists e. repeat split; [done..|].
    intros [|j] e' Hj; simpl; [by intros [= <-]|].
    apply Hfirst. lia.
Qed.

(** One turn of the inventory loop keeps the per-size counters
    non-negative, whatever its outcome. *)
Lemma reserve_sizes_ok item db x db1 :
  reserve item db = (x, db1) → sizes_ok (products db) → sizes_ok (products db1).
Proof.
  intros H Hok. destruct x as [r|[]].
  { apply reserve_frame in H as (_&_&_&_&H). by destruct (H r eq_refl) as [-> _]. }
  unfold reserve in H.
  destruct (item_product item) as [q|]; [|unfold ret in H; by simplify_eq].
  unfold_handler.
  destruct (products db !! q) as [product|] eqn:Eprod; [|by simplify_eq].
  destruct (trackInventoryBySize product) eqn:Ht.
  - destruct (or_str (item_size item) None) as [size|]; [|by simplify_eq].
    destruct (sizeInventory product) as [inv|] eqn:Einv; [|by simplify_eq].
    unfold reserve_size in H. unfold_handler.
    destruct (findIndex inv size) as [i|]; [|by simplify_eq].
    destruct (inv !! i) as [entry|] eqn:Ei; [|by simplify_eq].
    destruct (bool_decide _) eqn:Hlt in H; [done|].
    apply bool_decide_eq_false in Hlt. simplify_eq/=.
    intros pid p inv' e Hp Hinv He.
    apply lookup_insert_Some in Hp as [[<- <-]|[_ Hp]]; [|by eapply Hok].
    simpl in Hinv. simplify_eq.
    apply elem_of_insert_inv in He as [->|He]; [simpl; lia|by eapply Hok].
  - unfold reserve_stock in H. unfold_handler.
    destruct (bool_decide _) in H; [done|]. simplify_eq/=.
    intros pid p inv' e Hp Hinv He.
    apply lookup_insert_Some in Hp as [[<- <-]|[_ Hp]]; [|by eapply Hok].
    simpl in Hinv. by eapply Hok.
Qed.

Lemma for_each_reserve_sizes_ok l db x db1 :
  for_each reserve l db = (x, db1) → sizes_ok (products db) → sizes_ok (products db1).
Proof.
  revert db. induction l as [|item l IH]; intros db H Hok; simpl in H.
  - unfold ret in H. by simplify_eq.
  - unfold bind in H. destruct (reserve item db) as [[r|[]] db2] eqn:E.
    + simplify_eq. by eapply reserve_sizes_ok.
    + eapply IH; [done|]. by eapply reserve_sizes_ok.
Qed.

(** Every route but order creation leaves the products as they are. *)
Lemma serve_products r db :
  (∀ user body newId, r ≠ CreateOrder user body newId) →
  products (serve r db).2 = products db.
Proof.
  intros Hr. destruct r; unfold serve, route; [by destruct (Hr user body newId)|..].
  - unfold getOrder. unfold_handler. simpl. by goal_matches.
  - unfold setStatus. unfold_handler. simpl. by goal_matches.
  - unfold updateOrder. unfold_handler. simpl. by goal_matches.
  - unfold cancel. unfold_handler. simpl. by goal_matches.
  - unfold requestReturn. unfold_handler. simpl. by goal_matches.
  - unfold adminUpdate. unfold_handler. simpl. by goal_matches.
  - unfold approveReturn. unfold_handler. simpl. by goal_matches.
  - unfold rejectReturn. unfold_handler. simpl. by goal_matches.
  - unfold generateInvoice. unfold_handler. simpl. by goal_matches.
Qed.

Lemma serve_counters r db :
  stock_ok (products db) ∧ sizes_ok (products db) →
  stock_ok (products (serve r db).2) ∧ sizes_ok (products (serve r db).2).
Proof.
  intros [H1 H2].
  assert ((∃ user body newId, r = CreateOrder user body newId) ∨
          ∀ user body newId, r ≠ CreateOrder user body newId)
    as [(user&body&newId&->)|Hn] by (destruct r; eauto).
  - unfold serve, route.
    destruct (validates (new_order user body)) eqn:Hv.
    + rewrite createOrder_run by done.
      destruct (for_each reserve (b_items body) db) as [[r|[]] db1] eqn:E; simpl;
        (split; [by eapply for_each_reserve_stock_ok
                | by eapply for_each_reserve_sizes_ok]).
    + by destruct (createOrder_invalid user body newId db Hv) as [m ->].
  - by rewrite serve_products.
Qed.

(** X3.  No sequence of requests drives a stock counter below zero: if
    every scalar counter and every per-size counter is non-negative, they
    all still are after any requests. *)
Theorem counters_never_negative rs db :
  stock_ok (products db) → sizes_ok (products db) →
  stock_ok (products (serve_all rs db)) ∧ sizes_ok (products (serve_all rs db)).
Proof.
  revert db. induction rs as [|r rs IH]; intros db H1 H2; [done|].
  simpl. destruct (serve_counters r db (conj H1 H2)). by apply IH.
Qed.

Lemma sized_shop_lookup pid p :
  products sized_shop !! pid = Some p →
  p = jacket ∨ p = scalar_product "Shirt" 5 ∨ p = scalar_product "Cap" 2.
Proof.
  simpl. intros Hp.
  apply lookup_insert_Some in Hp as [[_ Heq]|[_ Hp]]; [by left|].
  apply lookup_insert_Some in Hp as [[_ Heq]|[_ Hp]]; [right; by left|].
  apply lookup_insert_Some in Hp as [[_ Heq]|[_ Hp]]; [right; by right|].
  by rewrite lookup_empty in Hp.
Defined.

Lemma sized_shop_stock_ok : stock_ok (products sized_shop).
Proof.
  intros pid p Hp _.
  destruct (sized_shop_lookup pid p Hp) as [-> | [-> | ->]]; simpl; lia.
Defined.

Lemma sized_shop_sizes_ok : sizes_ok (products sized_shop).
Proof.
  intros pid p inv e Hp Hinv He.
  destruct (sized_shop_lookup pid p Hp) as [-> | [-> | ->]]; simpl in Hinv;
    [|discriminate Hinv..].
  injection Hinv as <-.
  apply elem_of_cons in He as [->|He]; [simpl; lia|].
  apply elem_of_cons in He as [->|He]; [simpl; lia|].
  by apply elem_of_nil in He.
Defined.

Lemma counters_never_negative_witness :
  stock_ok (products (serve_all
     [CreateOrder None (order_request [sized_line "p3" "S" 900 2;
                                       line "p1" 100 5]) "o1";
      CreateOrder None (order_request [sized_line "p3" "S" 900 1]) "o2"]
     sized_shop)) ∧
  sizes_ok (products (serve_all
     [CreateOrder None (order_request [sized_line "p3" "S" 900 2;
                                       line "p1" 100 5]) "o1";
      CreateOrder None (order_request [sized_line "p3" "S" 900 1]) "o2"]
     sized_shop)).
Proof.
  apply (counters_never_negative
           [CreateOrder None (order_request [sized_line "p3" "S" 900 2;
                                             line "p1" 100 5]) "o1";
            CreateOrder None (order_request [sized_line "p3" "S" 900 1]) "o2"]
           sized_shop sized_shop_stock_ok sized_shop_sizes_ok).
Defined.

(** X4.  Stock changes only when an order is created: a sequence of
    requests without a creation leaves every product as it was, so no
    cancellation, status change or return decision puts anything back. *)
Theorem inventory_changed_only_by_creation rs db :
  Forall (λ r, ∀ user body newId, r ≠ CreateOrder user body newId) rs →
  products (serve_all rs db) = products db.
Proof.
  revert db. induction rs as [|r rs IH]; intros db Hrs; [done|].
  apply Forall_cons in Hrs as [Hr Hrs]. simpl.
  rewrite IH by done. by apply serve_products.
Qed.

Lemma inventory_changed_only_by_creation_witness :
  products (serve_all [Cancel asha "o1" None; ApproveReturn "o1";
                       SetStatus "o1" (Some "cancelled")]
              (db_with (sample_order "pending" (Some "Pending"))))
  = products (db_with (sample_order "pending" (Some "Pending"))).
Proof.
  apply (inventory_changed_only_by_creation
           [Cancel asha "o1" None; ApproveReturn "o1";
            SetStatus "o1" (Some "cancelled")]).
  repeat (apply Forall_cons; split; [discriminate|]). apply Forall_nil_2.
Defined.

(** X5.  For an item of a size-tracked product whose size the product
    lists, the loop checks and takes the quantity from the first counter
    with that size code: with too little there it refuses with the 409
    naming product, size and the quantity available and changes nothing;
    otherwise that counter drops by the requested quantity, and the other
    counters and the scalar [stock] stay as they are. *)
Theorem reserve_by_size item db pid p size inv i :
  item_product item = Some pid →
  products db !! pid = Some p → trackInventoryBySize p = true →
  or_str (item_size item) None = Some size →
  sizeInventory p = Some inv → findIndex inv size = Some i →
  ∃ e, inv !! i = Some e ∧ code e = size ∧
       (∀ j e', (j < i)%nat → inv !! j = Some e' → code e' ≠ size) ∧
       (sz_qty e < requestedQty item →
          reserve item db =
            (inl (OutOfStock ("Insufficient stock for " +:+ p_title p
                              +:+ " size " +:+ size) pid (sz_qty e)), db)) ∧
       (requestedQty item ≤ sz_qty e →
          ∃ db1 p1 inv1,
            reserve item db = (inr tt, db1) ∧
            products db1 = <[pid := p1]> (products db) ∧
            stock p1 = stock p ∧ sizeInventory p1 = Some inv1 ∧
            inv1 !! i = Some {| code := size;
                                sz_qty := sz_qty e - requestedQty item |} ∧
            length inv1 = length inv ∧
            ∀ j, j ≠ i → inv1 !! j = inv !! j).
Proof.
  intros Hid Hp Ht Hsize Hinv Hidx.
  destruct (findIndex_lookup _ _ _ Hidx) as (e&He&Hc&Hfirst).
  exists e. repeat split; [done..| |].
  - intros Hlt. unfold reserve. rewrite Hid. unfold_handler.
    rewrite Hp, Ht, Hsize, Hinv. unfold reserve_size. rewrite Hidx, He.
    unfold_handler. by rewrite bool_decide_eq_true_2.
  - intros Hge. unfold reserve. rewrite Hid. unfold_handler.
    rewrite Hp, Ht, Hsize, Hinv. unfold reserve_size. rewrite Hidx, He.
    unfold_handler. rewrite bool_decide_eq_false_2 by lia.
    eexists _, _, _. repeat split; simpl.
    + rewrite Hc. apply list_lookup_insert_eq. by eapply lookup_lt_Some.
    + apply length_insert.
    + intros j Hj. by apply list_lookup_insert_ne.
Qed.

Lemma reserve_by_size_witness :
  ∃ e, [ {| code := "S"; sz_qty := 2 |}; {| code := "M"; sz_qty := 0 |} ] !! 1%nat
         = Some e ∧ code e = "M" ∧
       (∀ j e', (j < 1)%nat →
          [ {| code := "S"; sz_qty := 2 |}; {| code := "M"; sz_qty := 0 |} ] !! j
            = Some e' → code e' ≠ "M") ∧
       (sz_qty e < requestedQty (sized_line "p3" "M" 900 1) →
          reserve (sized_line "p3" "M" 900 1) sized_shop =
            (inl (OutOfStock ("Insufficient stock for " +:+ p_title jacket
                              +:+ " size " +:+ "M") "p3" (sz_qty e)), sized_shop)) ∧
       (requestedQty (sized_line "p3" "M" 900 1) ≤ sz_qty e →
          ∃ db1 p1 inv1,
            reserve (sized_line "p3" "M" 900 1) sized_shop = (inr tt, db1) ∧
            products db1 = <["p3" := p1]> (products sized_shop) ∧
            stock p1 = stock jacket ∧ sizeInventory p1 = Some inv1 ∧
            inv1 !! 1%nat = Some {| code := "M";
                                    sz_qty := sz_qty e
                                              - requestedQty (sized_line "p3" "M" 900 1) |} ∧
            length inv1
              = length [ {| code := "S"; sz_qty := 2 |}; {| code := "M"; sz_qty := 0 |} ] ∧
            ∀ j, j ≠ 1%nat →
                 inv1 !! j
                 = [ {| code := "S"; sz_qty := 2 |}; {| code := "M"; sz_qty := 0 |} ] !! j).
Proof.
  apply (reserve_by_size (sized_line "p3" "M" 900 1) sized_shop "p3" jacket "M"
           [ {| code := "S"; sz_qty := 2 |}; {| code := "M"; sz_qty := 0 |} ] 1);
    first [reflexivity | vm_compute; reflexivity].
Defined.

(** X6.  An item of a size-tracked product that names no size, or a size
    the product does not list, passes the loop without any stock check and
    without any decrement: the database is unchanged, whatever quantity the
    item asks for. *)
Theorem reserve_unlisted_size item db pid p :
  item_product item = Some pid →
  products db !! pid = Some p → trackInventoryBySize p = true →
  (or_str (item_size item) None = None ∨
   ∃ size inv, or_str (item_size item) None = Some size ∧
               sizeInventory p = Some inv ∧
               ∀ e, e ∈ inv → code e ≠ size) →
  reserve item db = (inr tt, db).
Proof.
  intros Hid Hp Ht Hcase. unfold reserve. rewrite Hid. unfold_handler.
  rewrite Hp, Ht. destruct Hcase as [->|(size&inv&->&->&Hnone)]; [done|].
  unfold reserve_size.
  destruct (findIndex inv size) as [i|] eqn:Hi; [|done].
  destruct (findIndex_lookup _ _ _ Hi) as (e&He&Hc&_).
  destruct (Hnone e); [|done]. by eapply list_elem_of_lookup_2.
Qed.

Lemma reserve_unlisted_size_witness :
  reserve (sized_line "p3" "XL" 900 50) sized_shop = (inr tt, sized_shop).
Proof.
  apply (reserve_unlisted_size (sized_line "p3" "XL" 900 50) sized_shop "p3" jacket);
    [reflexivity | vm_compute; reflexivity | reflexivity |].
  right. exists "XL", [ {| code := "S"; sz_qty := 2 |}; {| code := "M"; sz_qty := 0 |} ].
  split; [reflexivity|]. split; [reflexivity|].
  intros e He.
  apply elem_of_cons in He as [->|He]; [discriminate|].
  apply elem_of_cons in He as [->|He]; [discriminate|].
  by apply elem_of_nil in He.
Defined.

(** X7.  A negative quantity is never refused on a product with a scalar
    counter that is not negative, and it raises the counter: the stock
    after the loop turn is the stock before plus the absolute value of the
    quantity. *)
Theorem reserve_negative_quantity item db pid p q :
  item_product item = Some pid →
  products db !! pid = Some p → trackInventoryBySize p = false →
  item_qty item = Some q → q < 0 → 0 ≤ stock p →
  ∃ db' p',
    reserve item db = (inr tt, db') ∧
    db' = with_products (<[pid := set_stock (stock p + Z.abs q) p]> (products db)) db ∧
    products db' !! pid = Some p' ∧
    stock p' = stock p + Z.abs q ∧ stock p < stock p' ∧
    p_title p' = p_title p ∧ sizeInventory p' = sizeInventory p ∧
    (∀ other, other ≠ pid → products db' !! other = products db !! other) ∧
    orders db' = orders db.
Proof.
  intros Hid Hp Ht Hq Hneg Hs.
  exists (with_products (<[pid := set_stock (stock p + Z.abs q) p]> (products db)) db),
         (set_stock (stock p + Z.abs q) p).
  split; [|split; [done|]]; cycle 1.
  { split; [apply lookup_insert_eq|]. split; [done|]. split; [simpl; lia|].
    split; [done|]. split; [done|]. split; [|done].
    intros other Hne. by apply lookup_insert_ne. }
  unfold reserve. rewrite Hid. unfold_handler.
  rewrite Hp, Ht. unfold reserve_stock, requestedQty. rewrite Hq. unfold_handler.
  assert (or_num (Some q) 1 = q) as ->.
  { simpl. destruct (decide (q = 0)); [lia|done]. }
  assert (or_num (Some (stock p)) 0 = stock p) as ->.
  { simpl. by destruct (decide (stock p = 0)). }
  rewrite bool_decide_eq_false_2 by lia.
  by replace (stock p - q) with (stock p + Z.abs q) by lia.
Qed.

Lemma reserve_negative_quantity_witness :
  ∃ db' p',
    reserve (line "p1" 100 (-3)) shop = (inr tt, db') ∧
    products db' !! "p1" = Some p' ∧ stock p' = 5 + 3.
Proof.
  destruct (reserve_negative_quantity (line "p1" 100 (-3)) shop "p1"
              (scalar_product "Shirt" 5) (-3))
    as (db' & p' & Hrun & _ & Hp' & Hstock & _);
    [reflexivity | vm_compute; reflexivity | reflexivity | reflexivity
    | vm_compute; reflexivity | vm_compute; discriminate |].
  exists db', p'. split; [exact Hrun|]. split; [exact Hp'|exact Hstock].
Defined.

Lemma pinOk_spec s :
  pinOk s = true ↔
  (4 ≤ String.length s ≤ 8)%nat ∧ all_digits s = true.
Proof.
  unfold pinOk. rewrite !andb_true_iff, !Nat.leb_le. tauto.
Qed.

(** X8.  Order creation validates before it touches anything: without
    items the answer is the 400 "No items"; else with a city, state or
    pincode that is missing or empty, the 400 "City, state and pincode are
    required"; else with a pincode that is not 4 to 8 decimal digits, the
    400 "Invalid pincode".  In each case the database, stock included, is
    unchanged. *)
Theorem createOrder_validation user body newId db :
  (b_items body = [] →
     run (createOrder user body newId) db = (Failure 400 "No items", db)) ∧
  (b_items body ≠ [] →
   city (new_order user body) = "" ∨ state (new_order user body) = ""
   ∨ pincode (new_order user body) = "" →
     run (createOrder user body newId) db
       = (Failure 400 "City, state and pincode are required", db)) ∧
  (b_items body ≠ [] →
   city (new_order user body) ≠ "" → state (new_order user body) ≠ "" →
   pincode (new_order user body) ≠ "" →
   ¬ ((4 ≤ String.length (pincode (new_order user body)) ≤ 8)%nat ∧
      all_digits (pincode (new_order user body)) = true) →
     run (createOrder user body newId) db = (Failure 400 "Invalid pincode", db)).
Proof.
  assert (items (new_order user body) = b_items body) as Hitems by done.
  split; [|split].
  - intros Hnil. unfold createOrder, validate, run. unfold_handler.
    rewrite Hitems. by rewrite bool_decide_eq_true_2.
  - intros Hne Hblank. unfold createOrder, validate, run. unfold_handler.
    rewrite Hitems. rewrite bool_decide_eq_false_2 by done.
    assert (bool_decide (city (new_order user body) = "")
            || bool_decide (state (new_order user body) = "")
            || bool_decide (pincode (new_order user body) = "") = true) as ->;
      [|done].
    rewrite !orb_true_iff, !bool_decide_eq_true. tauto.
  - intros Hne Hc Hs Hp Hpin. unfold createOrder, validate, run. unfold_handler.
    rewrite Hitems. rewrite bool_decide_eq_false_2 by done.
    rewrite (bool_decide_eq_false_2 (city _ = "")) by done.
    rewrite (bool_decide_eq_false_2 (state _ = "")) by done.
    rewrite (bool_decide_eq_false_2 (pincode _ = "")) by done.
    assert (pinOk (pincode (new_order user body)) = false) as ->; [|done].
    apply not_true_is_false. by intros ?%pinOk_spec.
Qed.

(** ** Notifications *)

(** X9.  A status update of an existing order mails the customer exactly
    when the status changes, the new status is [shipped] or [delivered],
    and the order's user has an email: then one status mail is added to the
    outbox; in every other case the outbox is as it was. *)
Theorem setStatus_notifies id s db o :
  orders db !! id = Some o → s ∈ ALLOWED_STATUSES →
  outbox (run (setStatus id (Some s)) db).2 =
    (outbox db ++
     match contact db o with
     | Some to =>
         if decide (s ≠ status o ∧ (s = "shipped" ∨ s = "delivered"))
         then [StatusUpdateEmail id to s] else []
     | None => []
     end)%list.
Proof.
  intros Ho Hs. apply includes_elem_of in Hs.
  unfold setStatus, run.
  rewrite (includes_nonempty _ _ Hs ALLOWED_STATUSES_nonempty), Hs.
  unfold reject_if at 1. unfold negb at 1.
  unfold bind at 1. unfold ret at 1.
  rewrite (bind_inr _ _ _ _ _ (find_order_found id _ db o Ho)).
  unfold_handler. simpl. fold (contact db o).
  destruct (contact db o) as [to|]; simpl; [|by rewrite app_nil_r].
  unfold is_shipped_or_delivered.
  destruct (decide (s ≠ status o ∧ (s = "shipped" ∨ s = "delivered")))
    as [[Hne Hsd]|Hn].
  - rewrite (bool_decide_eq_true_2 (s ≠ status o)) by done.
    assert (bool_decide (s = "shipped") || bool_decide (s = "delivered") = true)
      as -> by (rewrite orb_true_iff, !bool_decide_eq_true; tauto).
    done.
  - assert (bool_decide (s ≠ status o)
            && (bool_decide (s = "shipped") || bool_decide (s = "delivered"))
            = false) as ->.
    { apply not_true_is_false.
      rewrite andb_true_iff, orb_true_iff, !bool_decide_eq_true. tauto. }
    simpl. by rewrite app_nil_r.
Qed.

Lemma setStatus_notifies_witness :
  outbox (run (setStatus "o1" (Some "shipped"))
            (db_with (sample_order "paid" None))).2 =
    (outbox (db_with (sample_order "paid" None)) ++
     match contact (db_with (sample_order "paid" None)) (sample_order "paid" None) with
     | Some to =>
         if decide ("shipped" ≠ status (sample_order "paid" None)
                    ∧ ("shipped" = "shipped" ∨ "shipped" = "delivered"))
         then [StatusUpdateEmail "o1" to "shipped"] else []
     | None => []
     end)%list.
Proof.
  apply (setStatus_notifies "o1" "shipped" (db_with (sample_order "paid" None))
           (sample_order "paid" None)).
  - vm_compute. reflexivity.
  - apply includes_elem_of. reflexivity.
Defined.

Example setStatus_mails_once :
  outbox (run (setStatus "o1" (Some "shipped"))
            (db_with (sample_order "paid" None))).2
    = [StatusUpdateEmail "o1" "asha@example.com" "shipped"] ∧
  outbox (run (setStatus "o1" (Some "shipped"))
            (db_with (sample_order "shipped" None))).2 = [].
Proof. vm_compute. done. Qed.

(** X10.  A return decision on a pending request mails the customer, when
    the order's user has an email, with the outcome, and with the reason
    when the request is rejected; a decision that is refused mails
    nothing. *)
Theorem return_decision_notifies id reason db o :
  orders db !! id = Some o →
  (returnStatus o = Some "Pending" →
     outbox (run (approveReturn id) db).2 =
       (outbox db ++
        match contact db o with
        | Some to => [ReturnApprovalEmail id to (Some "Approved") None]
        | None => []
        end)%list ∧
     outbox (run (rejectReturn id reason) db).2 =
       (outbox db ++
        match contact db o with
        | Some to => [ReturnApprovalEmail id to (Some "Rejected") reason]
        | None => []
        end)%list) ∧
  (returnStatus o ≠ Some "Pending" →
     outbox (run (approveReturn id) db).2 = outbox db ∧
     outbox (run (rejectReturn id reason) db).2 = outbox db).
Proof.
  intros Ho. split.
  - intros Hp.
    assert (bool_decide (returnStatus o ≠ Some "Pending") = false) as Hb.
    { apply bool_decide_eq_false_2. tauto. }
    split.
    + unfold approveReturn, run.
      rewrite (bind_inr _ _ _ _ _ (find_order_found id _ db o Ho)).
      rewrite Hb. unfold_handler. simpl. fold (contact db o).
      destruct (contact db o); simpl; [done|by rewrite app_nil_r].
    + unfold rejectReturn, run.
      rewrite (bind_inr _ _ _ _ _ (find_order_found id _ db o Ho)).
      rewrite Hb. unfold_handler. simpl.
      assert (userId (assign_if reason set_rejectionReason
                        (set_returnStatus "Rejected" o)) = userId o) as ->.
      { unfold assign_if. by destruct (or_str reason None). }
      fold (contact db o).
      destruct (contact db o); simpl; [done|by rewrite app_nil_r].
  - intros Hp. split.
    + unfold approveReturn, run.
      rewrite (bind_inr _ _ _ _ _ (find_order_found id _ db o Ho)).
      unfold_handler. by rewrite bool_decide_eq_true_2.
    + unfold rejectReturn, run.
      rewrite (bind_inr _ _ _ _ _ (find_order_found id _ db o Ho)).
      unfold_handler. by rewrite bool_decide_eq_true_2.
Qed.

Lemma return_decision_notifies_witness :
  outbox (run (rejectReturn "o1" (Some "worn"))
            (db_with (sample_order "delivered" (Some "Pending")))).2 =
    (outbox (db_with (sample_order "delivered" (Some "Pending"))) ++
     match contact (db_with (sample_order "delivered" (Some "Pending")))
             (sample_order "delivered" (Some "Pending")) with
     | Some to => [ReturnApprovalEmail "o1" to (Some "Rejected") (Some "worn")]
     | None => []
     end)%list.
Proof.
  apply (proj1 (return_decision_notifies "o1" (Some "worn")
                  (db_with (sample_order "delivered" (Some "Pending")))
                  (sample_order "delivered" (Some "Pending"))
                  ltac:(vm_compute; reflexivity))).
  reflexivity.
Defined.

(** ** The admin update and the admin pages' status route *)

Lemma adminUpdate_run id newStatus trackingNo newReturnStatus db o :
  orders db !! id = Some o →
  ∃ db', run (adminUpdate id newStatus trackingNo newReturnStatus) db =
           (Success (DOrder (admin_updated newStatus trackingNo newReturnStatus o))
              (Some "Order updated successfully"), db') ∧
         orders db' =
           <[id := admin_updated newStatus trackingNo newReturnStatus o]> (orders db).
Proof.
  intros Ho. unfold adminUpdate, run.
  rewrite (bind_inr _ _ _ _ _ (find_order_found id _ db o Ho)).
  fold (admin_updated newStatus trackingNo newReturnStatus o).
  unfold_handler. simpl. goal_matches; eauto.
Qed.

(** On a body of strings the admin update of an existing order goes
    through.  A status outside the five, or a return status outside the
    four, is dropped without an error and the stored value is kept; a
    tracking number is stored trimmed; a field that is missing or empty is
    left alone. *)
Lemma adminUpdate_result id newStatus trackingNo newReturnStatus db o :
  orders db !! id = Some o →
  ∃ o' db',
    run (adminUpdate id newStatus trackingNo newReturnStatus) db =
      (Success (DOrder o') (Some "Order updated successfully"), db') ∧
    orders db' = <[id := o']> (orders db) ∧
    status o' =
      match or_str newStatus None with
      | Some s => if includes ALLOWED_STATUSES s then s else status o
      | None => status o
      end ∧
    returnStatus o' =
      match or_str newReturnStatus None with
      | Some r => if includes RETURN_STATUSES r then Some r else returnStatus o
      | None => returnStatus o
      end ∧
    trackingNumber o' =
      match or_str trackingNo None with
      | Some t => Some (trim t)
      | None => trackingNumber o
      end ∧
    items o' = items o ∧ total o' = total o ∧ userId o' = userId o.
Proof.
  intros Ho.
  destruct (adminUpdate_run id newStatus trackingNo newReturnStatus db o Ho)
    as (db'&Hrun&Hdb).
  exists (admin_updated newStatus trackingNo newReturnStatus o), db'.
  split; [done|]. split; [done|].
  unfold admin_updated, assign_if.
  destruct (or_str newStatus None) as [s|];
    [destruct (includes ALLOWED_STATUSES s)|];
    (destruct (or_str trackingNo None) as [t|]);
    (destruct (or_str newReturnStatus None) as [r|];
      [destruct (includes RETURN_STATUSES r)|]); done.
Qed.

(** X11.  The admin update of an existing order fails in one case only: a
    tracking number that is truthy and not a string (a number other than
    0, or [true]) makes it answer the 500 "Failed to update order", with
    nothing stored.  In every other case it goes through, whatever the
    body: a status that is not one of the five, or a return status that is
    not one of the four, is dropped without an error and the stored value
    is kept; a tracking number is stored trimmed; a field that is missing,
    empty or otherwise falsy is left alone. *)
Theorem adminUpdate_fails_only_on_tracking id st tn rs db o :
  orders db !! id = Some o →
  (truthy tn = true → as_string tn = None →
     run (adminUpdateBody id st tn rs) db
       = (Failure 500 "Failed to update order", db)) ∧
  (truthy tn = false ∨ is_Some (as_string tn) →
     ∃ o' db',
       run (adminUpdateBody id st tn rs) db =
         (Success (DOrder o') (Some "Order updated successfully"), db') ∧
       orders db' = <[id := o']> (orders db) ∧
       status o' =
         match st with
         | JStr s => if includes ALLOWED_STATUSES s then s else status o
         | _ => status o
         end ∧
       returnStatus o' =
         match rs with
         | JStr r => if includes RETURN_STATUSES r then Some r else returnStatus o
         | _ => returnStatus o
         end ∧
       trackingNumber o' =
         match tn with
         | JStr t => if decide (t = "") then trackingNumber o else Some (trim t)
         | _ => trackingNumber o
         end ∧
       items o' = items o ∧ total o' = total o ∧ userId o' = userId o).
Proof.
  intros Ho. split.
  - intros Ht Hs. unfold adminUpdateBody. rewrite Ht, Hs.
    rewrite bool_decide_eq_false_2 by (by intros [? ?]).
    unfold run. cbn [andb negb].
    rewrite (bind_inr _ _ _ _ _ (find_order_found id _ db o Ho)). done.
  - intros Hok.
    assert (truthy tn && negb (bool_decide (is_Some (as_string tn))) = false)
      as Hno.
    { destruct Hok as [->|Hs]; [done|].
      rewrite bool_decide_eq_true_2 by done. apply andb_false_r. }
    unfold adminUpdateBody. rewrite Hno.
    destruct (adminUpdate_result id (as_string st) (as_string tn) (as_string rs)
                db o Ho)
      as (o'&db'&Hrun&Hdb&Hst&Hrs&Htn&Hrest).
    exists o', db'. split; [done|]. split; [done|].
    split; [|split; [|split; [|done]]].
    + rewrite Hst. destruct st as [| |b|n|s]; try done. simpl.
      destruct (decide (s = "")) as [->|]; [|done].
      reflexivity.
    + rewrite Hrs. destruct rs as [| |b|n|r]; try done. simpl.
      destruct (decide (r = "")) as [->|]; [|done].
      reflexivity.
    + rewrite Htn. destruct tn as [| |b|n|t]; try done. simpl.
      by destruct (decide (t = "")).
Qed.

Lemma adminUpdate_fails_only_on_tracking_witness :
  run (adminUpdateBody "o1" (JStr "shipped") (JNum 77) JUndefined)
      (db_with (sample_order "paid" None))
    = (Failure 500 "Failed to update order", db_with (sample_order "paid" None)) ∧
  ∃ o' db',
    run (adminUpdateBody "o1" (JStr "refunded") (JStr " AWB 77 ") (JNum 1))
        (db_with (sample_order "shipped" (Some "Pending"))) =
      (Success (DOrder o') (Some "Order updated successfully"), db') ∧
    status o' = "shipped" ∧ returnStatus o' = Some "Pending" ∧
    trackingNumber o' = Some "AWB 77".
Proof.
  split.
  - apply (proj1 (adminUpdate_fails_only_on_tracking "o1" (JStr "shipped")
                    (JNum 77) JUndefined (db_with (sample_order "paid" None))
                    (sample_order "paid" None) ltac:(vm_compute; reflexivity)));
      reflexivity.
  - destruct (proj2 (adminUpdate_fails_only_on_tracking "o1" (JStr "refunded")
                       (JStr " AWB 77 ") (JNum 1)
                       (db_with (sample_order "shipped" (Some "Pending")))
                       (sample_order "shipped" (Some "Pending"))
                       ltac:(vm_compute; reflexivity)))
      as (o' & db' & Hrun & _ & Hst & Hrs & Htn & _).
    { right. by eexists. }
    exists o', db'. split; [exact Hrun|].
    split; [exact Hst|]. split; [exact Hrs|exact Htn].
Defined.

Example adminUpdate_drops_unknown_values :
  (λ o, (status o, returnStatus o, trackingNumber o))
    (admin_updated (Some "refunded") (Some " AWB 77 ") (Some "Closed")
       (sample_order "shipped" (Some "Pending")))
  = ("shipped", Some "Pending", Some "AWB 77").
Proof. vm_compute. reflexivity. Qed.

Lemma status_alias_nonempty s : s ≠ "" → status_alias s ≠ "".
Proof.
  unfold status_alias. intros Hs.
  destruct (decide (s = "processing")); [done|].
  by destruct (decide (s = "completed")).
Qed.


Example updateOrder_aliases :
  status <$> orders (run (updateOrder "o1" (Some "completed"))
                       (db_with (sample_order "shipped" None))).2 !! "o1"
    = Some "delivered" ∧
  outbox (run (updateOrder "o1" (Some "completed"))
            (db_with (sample_order "shipped" None))).2 = [] ∧
  outbox (run (setStatus "o1" (Some "delivered"))
            (db_with (sample_order "shipped" None))).2
    = [StatusUpdateEmail "o1" "asha@example.com" "delivered"].
Proof. vm_compute. done. Qed.

(** ** Cancelling and reading *)

Lemma cancelled_refused user id reason db o :
  orders db !! id = Some o → status o = "cancelled" →
  (∃ c m, run (cancel user id reason) db = (Failure c m, db)) ∧
  (∃ c m, run (requestReturn user id reason) db = (Failure c m, db)).
Proof.
  intros Ho Hst. split.
  - unfold cancel, run.
    rewrite (bind_inr _ _ _ _ _ (find_order_found id _ db _ Ho)).
    unfold_handler. rewrite Hst.
    destruct (_ && _); [eauto|]. simpl. eauto.
  - unfold requestReturn, run.
    destruct (or_str reason None) as [r|]; [|eauto].
    unfold_handler.
    destruct (bool_decide (trim r = "")); [eauto|].
    rewrite Ho. rewrite Hst.
    destruct (bool_decide (String_of _ ≠ actor_id user)); [eauto|]. simpl. eauto.
Qed.

(** [cancel] and [requestReturn] touch no order but the one they name. *)
Lemma cancel_return_frame user id' reason db id :
  id ≠ id' →
  orders (run (cancel user id' reason) db).2 !! id = orders db !! id ∧
  orders (run (requestReturn user id' reason) db).2 !! id = orders db !! id.
Proof.
  intros Hne. split.
  - unfold cancel, run. unfold_handler.
    destruct (orders db !! id') as [o0|]; simpl; [|done].
    destruct (_ && _); simpl; [done|]. destruct (negb _); simpl; [done|].
    by apply lookup_insert_ne.
  - unfold requestReturn, run.
    destruct (or_str reason None) as [r|]; [|done].
    unfold_handler.
    destruct (bool_decide (trim r = "")); simpl; [done|].
    destruct (orders db !! id') as [o0|]; simpl; [|done].
    destruct (bool_decide (String_of _ ≠ actor_id user)); simpl; [done|].
    destruct (bool_decide (status o0 ≠ "delivered")); simpl; [done|].
    by apply lookup_insert_ne.
Qed.

(** X13.  A cancelled order is final for the two routes of the customer:
    every [cancel] and every [requestReturn] on it, by anyone and with any
    reason, is refused and changes nothing, and no sequence of requests to
    these two routes, on this or on other orders, alters it.  (The status
    routes of the admin are another matter: see [cancelled_reopened].) *)
Theorem cancelled_is_final rs db id o :
  Forall cancel_or_return rs →
  orders db !! id = Some o → status o = "cancelled" →
  orders (serve_all rs db) !! id = Some o ∧
  ∀ user reason,
    (∃ c m, run (cancel user id reason) (serve_all rs db)
            = (Failure c m, serve_all rs db)) ∧
    (∃ c m, run (requestReturn user id reason) (serve_all rs db)
            = (Failure c m, serve_all rs db)).
Proof.
  intros Hrs Ho Hst.
  assert (orders (serve_all rs db) !! id = Some o) as Hkept.
  { revert db Ho. induction Hrs as [|r rs Hr _ IH]; intros db Ho; [done|].
    simpl. apply IH.
    destruct r as [| | | |user id' reason|user id' reason| | | |]; try done;
      unfold serve, route.
    - destruct (decide (id = id')) as [<-|Hne].
      + destruct (cancelled_refused user id reason db o Ho Hst) as [(c&m&->) _].
        done.
      + by rewrite (proj1 (cancel_return_frame user id' reason db id Hne)).
    - destruct (decide (id = id')) as [<-|Hne].
      + destruct (cancelled_refused user id reason db o Ho Hst) as [_ (c&m&->)].
        done.
      + by rewrite (proj2 (cancel_return_frame user id' reason db id Hne)). }
  split; [done|]. intros user reason. by apply (cancelled_refused _ _ _ _ o).
Qed.

Lemma cancelled_is_final_witness :
  orders (serve_all [Cancel staff "o1" (Some "again");
                     RequestReturn asha "o1" (Some "too late")]
            (run (cancel asha "o1" None)
               (db_with (sample_order "pending" None))).2) !! "o1"
    = Some (cancelled None (sample_order "pending" None)) ∧
  ∀ user reason,
    (∃ c m, run (cancel user "o1" reason)
              (serve_all [Cancel staff "o1" (Some "again");
                          RequestReturn asha "o1" (Some "too late")]
                 (run (cancel asha "o1" None)
                    (db_with (sample_order "pending" None))).2)
            = (Failure c m,
               serve_all [Cancel staff "o1" (Some "again");
                          RequestReturn asha "o1" (Some "too late")]
                 (run (cancel asha "o1" None)
                    (db_with (sample_order "pending" None))).2)) ∧
    (∃ c m, run (requestReturn user "o1" reason)
              (serve_all [Cancel staff "o1" (Some "again");
                          RequestReturn asha "o1" (Some "too late")]
                 (run (cancel asha "o1" None)
                    (db_with (sample_order "pending" None))).2)
            = (Failure c m,
               serve_all [Cancel staff "o1" (Some "again");
                          RequestReturn asha "o1" (Some "too late")]
                 (run (cancel asha "o1" None)
                    (db_with (sample_order "pending" None))).2)).
Proof.
  apply (cancelled_is_final
           [Cancel staff "o1" (Some "again");
            RequestReturn asha "o1" (Some "too late")]
           (run (cancel asha "o1" None) (db_with (sample_order "pending" None))).2
           "o1" (cancelled None (sample_order "pending" None)));
    [repeat constructor | vm_compute; reflexivity | reflexivity].
Defined.

(** The status route puts a cancelled order back to [pending], and then it
    can be cancelled once more. *)
Example cancelled_reopened :
  let db := (run (cancel asha "o1" None) (db_with (sample_order "pending" None))).2 in
  status <$> orders db !! "o1" = Some "cancelled" ∧
  status <$> orders (serve_all [SetStatus "o1" (Some "pending")] db) !! "o1"
    = Some "pending" ∧
  (run (cancel asha "o1" (Some "again"))
     (serve_all [SetStatus "o1" (Some "pending")] db)).1
    = Success (DOrder (cancelled (Some "again") (sample_order "pending" None))) None.
Proof. vm_compute. done. Qed.

(** X14.  [GET /:id] discloses an existing order to its owner and to
    admins only: every other caller, a caller without identity included,
    gets the 403 (not a 401); an unknown id gets the 404 before any
    identity check; and the route changes nothing. *)
Theorem getOrder_access user id db :
  (orders db !! id = None →
     run (getOrder user id) db = (Failure 404 "Not found", db)) ∧
  (∀ o, orders db !! id = Some o →
     (∀ u, user = Some u → actor_id u ≠ "undefined" →
        owner_or_admin u o →
        run (getOrder user id) db = (Success (DOrder o) None, db)) ∧
     (∀ u, user = Some u → actor_id u ≠ "undefined" →
        ¬ owner_or_admin u o →
        run (getOrder user id) db = (Failure 403 "Forbidden", db)) ∧
     (user = None →
        run (getOrder user id) db = (Failure 403 "Forbidden", db))).
Proof.
  split.
  - intros Ho. unfold getOrder, run. unfold_handler. by rewrite Ho.
  - intros o Ho. unfold getOrder, run.
    rewrite (bind_inr _ _ _ _ _ (find_order_found id _ db o Ho)).
    unfold_handler. repeat split.
    + intros u -> Hu Hown.
      assert (bool_decide (actor_id u = String_of (userId o))
              || bool_decide (role u = "admin") = true) as ->; [|done].
      rewrite orb_true_iff, !bool_decide_eq_true.
      destruct Hown as [Hown|?]; [left|by right].
      symmetry. by apply owns_String_of.
    + intros u -> Hu Hown.
      assert (bool_decide (actor_id u = String_of (userId o))
              || bool_decide (role u = "admin") = false) as ->; [|done].
      apply not_true_is_false.
      rewrite orb_true_iff, !bool_decide_eq_true. intros [Heq|?].
      * apply Hown. left. apply owns_String_of; done.
      * apply Hown. by right.
    + by intros ->.
Qed.

(** ** Listings *)

#[local] Instance newer_total stamp : Total (newer stamp).
Proof. intros a b. unfold newer. lia. Qed.

Lemma newest_first_elem_of stamp l d : d ∈ newest_first stamp l ↔ d ∈ l.
Proof. unfold newest_first. by rewrite merge_sort_Permutation. Qed.

Lemma orders_of_elem_of u db d :
  d ∈ orders_of u db ↔ orders db !! d.1 = Some d.2 ∧ owns u d.2.
Proof.
  unfold orders_of, owns. rewrite list_elem_of_filter.
  destruct d as [id o]. rewrite elem_of_map_to_list. tauto.
Qed.

(** X15.  The listing of one's own orders ([GET /?mine=1] and [GET /mine])
    holds exactly the stored orders whose user is the caller, each once,
    newest first. *)
Theorem listOrders_mine stamp u db :
  ∃ docs,
    listOrders stamp (Some u) (Some "1") db = Docs docs ∧
    listMine stamp u db = Docs docs ∧
    (∀ id o, (id, o) ∈ docs ↔ orders db !! id = Some o ∧ owns u o) ∧
    NoDup docs.*1 ∧
    Sorted (λ a b, stamp b.1 ≤ stamp a.1) docs.
Proof.
  exists (newest_first stamp (orders_of u db)).
  split; [reflexivity|]. split; [reflexivity|]. split; [|split].
  - intros id o. by rewrite newest_first_elem_of, orders_of_elem_of.
  - unfold newest_first. rewrite merge_sort_Permutation.
    unfold orders_of.
    pose proof (NoDup_fst_map_to_list (orders db)) as Hnd.
    revert Hnd. generalize (map_to_list (orders db)). intros l.
    induction l as [|[i o] l IH]; [intros _; apply NoDup_nil_2|].
    rewrite fmap_cons. simpl.
    intros [Hni Hnd]%NoDup_cons.
    destruct (decide (userId o = Some (actor_id u))) as [Hu|Hu].
    + rewrite filter_cons_True by done. simpl. apply NoDup_cons. split; [|by apply IH].
      intros ((i'&o')&Heq&Hin%list_elem_of_filter)%list_elem_of_fmap.
      simpl in Heq. subst i'.
      apply Hni. apply list_elem_of_fmap. exists (i, o'). tauto.
    + rewrite filter_cons_False by done. by apply IH.
  - apply (Sorted_merge_sort (newer stamp)).
Qed.

(** X16.  A caller who is not an admin never gets another user's order out
    of [GET /]: whatever the [mine] parameter, the answer is the 403 or
    holds the caller's own orders only (a [mine] other than exactly [1] is
    taken for the request of the full list); a caller without identity
    gets the 401 in every case. *)
Theorem listOrders_isolation stamp user mine db :
  (user = None → listOrders stamp user mine db = ListFailure 401 "Unauthorized") ∧
  (∀ u, user = Some u → role u ≠ "admin" →
     (or_str mine None ≠ Some "1" →
        listOrders stamp user mine db = ListFailure 403 "Forbidden") ∧
     (∀ docs, listOrders stamp user mine db = Docs docs →
        ∀ id o, (id, o) ∈ docs → orders db !! id = Some o ∧ owns u o)).
Proof.
  split.
  - intros ->. unfold listOrders. by destruct (bool_decide _).
  - intros u -> Hrole. unfold listOrders. split.
    + intros Hm. rewrite bool_decide_eq_false_2 by done.
      by rewrite bool_decide_eq_true_2.
    + intros docs. destruct (bool_decide (or_str mine None = Some "1")).
      * intros [= <-] id o Hin.
        by apply newest_first_elem_of, orders_of_elem_of in Hin.
      * by rewrite bool_decide_eq_true_2.
Qed.

(** ** Invoices *)


Lemma generateInvoice_number_utc_witness :
  (run (generateInvoice 0 nov1_0900 "i2" (Some "o2"))
     (run (generateInvoice 0 nov1_0430 "i1" (Some "o1")) two_orders).2).1 =
    Success (DInvoice "i2"
               (make_invoiceNo (dateStr nov1_0900)
                  (issued_on_day_of nov1_0900
                     (invoices (run (generateInvoice 0 nov1_0430 "i1" (Some "o1"))
                                  two_orders).2))))
      None.
Proof.
  apply (generateInvoice_number_utc nov1_0900 "i2" "o2"
           (run (generateInvoice 0 nov1_0430 "i1" (Some "o1")) two_orders).2
           (sample_order "paid" None));
    [discriminate | vm_compute; reflexivity | vm_compute; reflexivity].
Defined.

Lemma sequence_four_digits_witness :
  String.length (padStart 4 zero (String_of_num (41 + 1))) = 4%nat.
Proof. apply (sequence_four_digits 41). lia. Defined.

(** A request changes the invoices only by adding one for an order that had
    none. *)
Lemma serve_invoices r db :
  invoices (serve r db).2 = invoices db ∨
  ∃ i, invoices (serve r db).2 = (invoices db ++ [i])%list ∧
       inv_orderId i ∉ inv_orderId <$> invoices db.
Proof.
  destruct r; unfold serve, route.
  - destruct (validates (new_order user body)) eqn:Hv.
    + rewrite createOrder_run by done.
      destruct (for_each reserve (b_items body) db) as [[r|[]] db1] eqn:E;
        apply for_each_reserve_frame in E as (_&_&E&_); simpl; by left.
    + destruct (createOrder_invalid user body newId db Hv) as [m ->]. by left.
  - unfold getOrder. unfold_handler. simpl. left. by goal_matches.
  - unfold setStatus. unfold_handler. simpl. left. by goal_matches.
  - unfold updateOrder. unfold_handler. simpl. left. by goal_matches.
  - unfold cancel. unfold_handler. simpl. left. by goal_matches.
  - unfold requestReturn. unfold_handler. simpl. left. by goal_matches.
  - unfold adminUpdate. unfold_handler. simpl. left. by goal_matches.
  - unfold approveReturn. unfold_handler. simpl. left. by goal_matches.
  - unfold rejectReturn. unfold_handler. simpl. left. by goal_matches.
  - unfold generateInvoice. unfold_handler. simpl.
    destruct (or_str orderId None) as [oid|]; [|by left].
    destruct (orders db !! oid) as [o|]; simpl; [|by left].
    destruct (findOne oid (invoices db)) eqn:Hf; simpl; [by left|].
    right. eexists. split; [done|]. simpl. by apply findOne_None.
Qed.

(** X19.  No sequence of requests gives an order a second invoice:
    starting without invoices, the invoices issued are for pairwise
    different orders. *)
Theorem never_two_invoices_per_order rs ps us :
  one_invoice_per_order (invoices (serve_all rs (fresh_db ps us))).
Proof.
  assert (∀ db, one_invoice_per_order (invoices db) →
                one_invoice_per_order (invoices (serve_all rs db))) as H.
  { induction rs as [|r rs IH]; intros db Hdb; [done|].
    simpl. apply IH. unfold one_invoice_per_order in *.
    destruct (serve_invoices r db) as [->|(i&->&Hi)]; [done|].
    rewrite fmap_app. apply NoDup_app. split; [done|]. split.
    - by intros x Hx [->|[]%elem_of_nil]%elem_of_cons.
    - apply NoDup_singleton. }
  apply H. apply NoDup_nil_2.
Qed.

(** X20.  The issuer refuses a request without an order id with the 400 and
    one for an unknown order with the 404, creating nothing.  The first
    request for an order that exists adds one invoice in status [issued]
    that names the order, and stores that invoice's id on the order; the
    rest of the order, and every other order, stay as they were. *)
Theorem generateInvoice_links tz now newId orderId db :
  (or_str orderId None = None →
     run (generateInvoice tz now newId orderId) db
       = (Failure 400 "Missing orderId", db)) ∧
  (∀ oid, or_str orderId None = Some oid → orders db !! oid = None →
     run (generateInvoice tz now newId orderId) db
       = (Failure 404 "Order not found", db)) ∧
  (∀ oid o, or_str orderId None = Some oid → orders db !! oid = Some o →
     findOne oid (invoices db) = None →
     ∃ i db1,
       run (generateInvoice tz now newId orderId) db
         = (Success (DInvoice newId (invoiceNo i)) None, db1) ∧
       invoices db1 = (invoices db ++ [i])%list ∧
       inv_id i = newId ∧ inv_orderId i = oid ∧ inv_status i = "issued" ∧
       orders db1 = <[oid := set_invoiceId newId o]> (orders db) ∧
       invoiceId (set_invoiceId newId o) = Some newId ∧
       status (set_invoiceId newId o) = status o ∧
       returnStatus (set_invoiceId newId o) = returnStatus o ∧
       items (set_invoiceId newId o) = items o ∧
       total (set_invoiceId newId o) = total o ∧
       userId (set_invoiceId newId o) = userId o ∧
       products db1 = products db ∧ outbox db1 = outbox db).
Proof.
  split; [|split].
  - intros Hn. unfold generateInvoice, run. by rewrite Hn.
  - intros oid Hs Ho. unfold generateInvoice, run. rewrite Hs.
    unfold_handler. by rewrite Ho.
  - intros oid o Hs Ho Hf. unfold generateInvoice, run. rewrite Hs.
    rewrite (bind_inr _ _ _ _ _ (find_order_found oid _ db o Ho)).
    unfold_handler. rewrite Hf. eexists _, _. split; [reflexivity|]. done.
Qed.

(** ** Escaping the replies to reviews *)

Lemma string_app_cons a (x y : string) : String a x +:+ y = String a (x +:+ y).
Proof. reflexivity. Qed.

Lemma string_app_assoc (x y z : string) : x +:+ (y +:+ z) = (x +:+ y) +:+ z.
Proof.
  induction x as [|a x IH]; [done|]. by rewrite !string_app_cons, IH.
Qed.

Lemma replace_all_app c r x y :
  replace_all c r (x +:+ y) = replace_all c r x +:+ replace_all c r y.
Proof.
  induction x as [|a x IH]; [done|].
  rewrite string_app_cons. simpl.
  destruct (decide (a = c)); rewrite IH; [|by rewrite string_app_cons].
  apply string_app_assoc.
Qed.

Lemma sanitize_app x y : sanitize (x +:+ y) = sanitize x +:+ sanitize y.
Proof. unfold sanitize. by rewrite !replace_all_app. Qed.

Lemma sanitize_one a : sanitize (String a EmptyString) = escape a.
Proof.
  unfold escape.
  destruct (decide (a = ampersand)) as [->|H1]; [reflexivity|].
  destruct (decide (a = less_than)) as [->|H2]; [reflexivity|].
  destruct (decide (a = greater_than)) as [->|H3]; [reflexivity|].
  destruct (decide (a = quote_char)) as [->|H4]; [reflexivity|].
  destruct (decide (a = apostrophe)) as [->|H5]; [reflexivity|].
  unfold sanitize. simpl.
  rewrite (decide_False (P := a = ampersand)) by done. simpl.
  rewrite (decide_False (P := a = less_than)) by done. simpl.
  rewrite (decide_False (P := a = greater_than)) by done. simpl.
  rewrite (decide_False (P := a = quote_char)) by done. simpl.
  by rewrite (decide_False (P := a = apostrophe)) by done.
Qed.

(** The five passes amount to one pass that escapes each character on its
    own. *)
Lemma sanitize_cons a s : sanitize (String a s) = escape a +:+ sanitize s.
Proof.
  change (String a s) with (String a EmptyString +:+ s).
  by rewrite sanitize_app, sanitize_one.
Qed.

Lemma elem_of_string_app c x y :
  c ∈ String.list_ascii_of_string (x +:+ y) ↔
  c ∈ String.list_ascii_of_string x ∨ c ∈ String.list_ascii_of_string y.
Proof.
  induction x as [|a x IH].
  - change (EmptyString +:+ y) with y. simpl. rewrite elem_of_nil. tauto.
  - rewrite string_app_cons. simpl. rewrite !elem_of_cons, IH. tauto.
Qed.

Lemma escape_clean a c :
  c ∈ String.list_ascii_of_string (escape a) →
  c ≠ less_than ∧ c ≠ greater_than ∧ c ≠ quote_char ∧ c ≠ apostrophe.
Proof.
  unfold escape.
  repeat match goal with
         | |- context [decide (a = ?x)] => destruct (decide (a = x))
         end; simpl;
  rewrite ?elem_of_cons, elem_of_nil; intros H;
  repeat match goal with H : _ ∨ _ |- _ => destruct H as [H|H] end;
  try done; subst; repeat split; first [done | discriminate].
Qed.

(** X21.  What [sanitize] returns holds none of the characters [<], [>],
    the double quote and the apostrophe, whatever it is given. *)
Theorem sanitize_clean s :
  Forall (λ c, c ≠ less_than ∧ c ≠ greater_than ∧ c ≠ quote_char
               ∧ c ≠ apostrophe)
    (String.list_ascii_of_string (sanitize s)).
Proof.
  apply Forall_forall. induction s as [|a s IH]; [by intros ? ?%elem_of_nil|].
  intros c. rewrite sanitize_cons, elem_of_string_app.
  intros [H|H]; [by eapply escape_clean|by apply IH].
Qed.

Lemma string_app_nil_l (y : string) : EmptyString +:+ y = y.
Proof. reflexivity. Qed.

Lemma escape_inj a1 a2 r1 r2 :
  escape a1 +:+ r1 = escape a2 +:+ r2 → a1 = a2 ∧ r1 = r2.
Proof.
  unfold escape.
  repeat match goal with
         | |- context [decide (?a = ?x)] => destruct (decide (a = x))
         end;
  rewrite ?string_app_cons, ?string_app_nil_l; intros H; simplify_eq; done.
Qed.

Lemma escape_nonempty a r : escape a +:+ r ≠ EmptyString.
Proof.
  unfold escape.
  repeat match goal with
         | |- context [decide (?a = ?x)] => destruct (decide (a = x))
         end; by rewrite string_app_cons.
Qed.

(** X22.  [sanitize] loses nothing: two texts are escaped to the same text
    only if they are the same text. *)
Theorem sanitize_injective s1 s2 : sanitize s1 = sanitize s2 ↔ s1 = s2.
Proof.
  split; [|by intros ->].
  revert s2. induction s1 as [|a1 s1 IH]; intros [|a2 s2].
  - done.
  - rewrite sanitize_cons. intros H. symmetry in H. by apply escape_nonempty in H.
  - rewrite sanitize_cons. intros H. by apply escape_nonempty in H.
  - rewrite !sanitize_cons. intros [-> Hr]%escape_inj. by rewrite (IH _ Hr).
Qed.

Lemma string_length_app (x y : string) :
  String.length (x +:+ y) = (String.length x + String.length y)%nat.
Proof.
  induction x as [|a x IH]; [done|]. rewrite string_app_cons. simpl. by rewrite IH.
Qed.

Lemma escape_length a : (1 ≤ String.length (escape a) ≤ 6)%nat.
Proof.
  unfold escape.
  repeat match goal with
         | |- context [decide (?a = ?x)] => destruct (decide (a = x))
         end; simpl; lia.
Qed.

Lemma sanitize_length s :
  (String.length s ≤ String.length (sanitize s) ≤ 6 * String.length s)%nat.
Proof.
  induction s as [|a s IH]; [done|].
  rewrite sanitize_cons, string_length_app. pose proof (escape_length a).
  simpl. lia.
Qed.

Lemma substring_length_le n m s : (String.length (String.substring n m s) ≤ m)%nat.
Proof.
  revert n m. induction s as [|a s IH]; intros [|n] [|m]; simpl; try lia.
  - specialize (IH 0%nat m). lia.
  - apply (IH n 0%nat).
  - apply (IH n (S m)).
Qed.

Lemma substring_0_min n s :
  String.length (String.substring 0 n s) = Nat.min n (String.length s).
Proof.
  revert n. induction s as [|a s IH]; intros [|n]; simpl; try done.
  by rewrite IH.
Qed.

Lemma substring_0_Forall (P : Ascii.ascii → Prop) n s :
  Forall P (String.list_ascii_of_string s) →
  Forall P (String.list_ascii_of_string (String.substring 0 n s)).
Proof.
  revert n. induction s as [|a s IH]; intros [|n]; simpl; intros H;
    try apply Forall_nil_2; try done.
  apply Forall_cons in H as [? ?]. apply Forall_cons. split; [done|].
  by apply IH.
Qed.

Lemma sanitize_quotes_length s :
  Forall (λ c, c = quote_char ∨ c = apostrophe) (String.list_ascii_of_string s) →
  String.length (sanitize s) = (6 * String.length s)%nat.
Proof.
  induction s as [|a s IH]; [done|]. simpl.
  intros [Ha Hs]%Forall_cons.
  rewrite sanitize_cons, string_length_app, IH by done.
  destruct Ha as [-> | ->]; simpl; lia.
Qed.

(** X23.  The text stored with a reply is cut to 2000 characters before it
    is escaped, not after.  The stored text is therefore never shorter than
    the part of the text that is kept and never longer than 12000
    characters, and the upper bound is reached: a text of quotes or
    apostrophes is stored with six characters for each of its first 2000,
    so with more than 2000 characters from the 334th on. *)
Theorem reply_text_length text :
  (String.length (String.substring 0 2000 text)
   ≤ String.length (reply_text text) ≤ 6 * 2000)%nat ∧
  (Forall (λ c, c = quote_char ∨ c = apostrophe)
     (String.list_ascii_of_string text) →
   String.length (reply_text text)
   = (6 * Nat.min 2000 (String.length text))%nat).
Proof.
  unfold reply_text. split.
  - pose proof (sanitize_length (String.substring 0 2000 text)) as [H1 H2].
    pose proof (substring_length_le 0 2000 text). split; [done|].
    etrans; [exact H2|]. apply Nat.mul_le_mono_l. done.
  - intros Hq. rewrite sanitize_quotes_length by by apply substring_0_Forall.
    by rewrite substring_0_min.
Qed.

(** A reply of 2001 quotes is stored with 12000 characters. *)
Example reply_text_longer_than_cut :
  String.length (reply_text (replicate_char 2001 quote_char)) = (6 * 2000)%nat.
Proof. vm_compute. reflexivity. Qed.

(** ** The address of the order detail *)

Lemma substring_0_length n s :
  (n ≤ String.length s)%nat → String.length (String.substring 0 n s) = n.
Proof.
  revert n. induction s as [|a s IH]; intros [|n]; simpl; try lia.
  intros H. rewrite IH; lia.
Qed.

Lemma find_pin_Some s p :
  find_pin s = Some p → String.length p = 6%nat ∧ all_digits p = true.
Proof.
  induction s as [|a s IH]; simpl.
  - destruct (pin_here "") eqn:E; [|done]. by vm_compute in E.
  - destruct (pin_here (String a s)) eqn:E; [|exact IH].
    intros [= <-]. unfold pin_here in E.
    apply andb_prop in E as [E _]. apply andb_prop in E as [E1 E2].
    by apply Nat.eqb_eq in E1.
Qed.

(** X24.  The pincode derived from an address is empty or made of exactly
    six decimal digits. *)
Theorem derived_pincode_shape addr :
  d_pincode (deriveFromAddress addr) = "" ∨
  (String.length (d_pincode (deriveFromAddress addr)) = 6%nat ∧
   all_digits (d_pincode (deriveFromAddress addr)) = true).
Proof.
  unfold deriveFromAddress. simpl.
  destruct (find_pin addr) as [p|] eqn:E; [right|by left].
  by apply find_pin_Some in E.
Qed.

Lemma trimStart_elem c s :
  c ∈ String.list_ascii_of_string (trimStart s) → c ∈ String.list_ascii_of_string s.
Proof.
  induction s as [|a s IH]; simpl; [done|].
  destruct (is_space a); [|done]. intros H. right. by apply IH.
Qed.

Lemma trimEnd_elem c s :
  c ∈ String.list_ascii_of_string (trimEnd s) → c ∈ String.list_ascii_of_string s.
Proof.
  induction s as [|a s IH]; simpl; [done|].
  destruct (trimEnd s) as [|b t] eqn:E.
  - destruct (is_space a); simpl; [by intros ?%elem_of_nil|].
    intros [->|[]%elem_of_nil]%elem_of_cons. by left.
  - simpl. intros [->|H]%elem_of_cons; [by left|]. right. by apply IH.
Qed.

Lemma trim_elem c s :
  c ∈ String.list_ascii_of_string (trim s) → c ∈ String.list_ascii_of_string s.
Proof. unfold trim. intros H. by apply trimStart_elem, trimEnd_elem. Qed.

Lemma letters_and_spaces_elem c s :
  c ∈ String.list_ascii_of_string (letters_and_spaces s) →
  is_letter c || is_space c = true.
Proof.
  induction s as [|a s IH]; simpl; [by intros ?%elem_of_nil|].
  destruct (is_letter a || is_space a) eqn:E; [|exact IH].
  simpl. intros [->|H]%elem_of_cons; [done|by apply IH].
Qed.

(** X25.  The city derived from an address holds letters and white space
    only: no digit and no punctuation gets into it. *)
Theorem derived_city_letters addr :
  Forall (λ c, is_letter c || is_space c = true)
    (String.list_ascii_of_string (d_city (deriveFromAddress addr))).
Proof.
  apply Forall_forall. intros c. unfold deriveFromAddress. simpl.
  destruct (last _) as [p|]; [|by intros ?%elem_of_nil].
  intros H%trim_elem. by eapply letters_and_spaces_elem.
Qed.

Lemma digit_not_space a : is_digit a = true → is_space a = false.
Proof.
  unfold is_digit, is_space. cbv zeta.
  intros [H1%Nat.leb_le H2%Nat.leb_le]%andb_prop.
  apply not_true_is_false.
  rewrite !orb_true_iff, andb_true_iff, !Nat.eqb_eq, !Nat.leb_le. lia.
Qed.

Lemma all_digits_trimStart s : all_digits s = true → trimStart s = s.
Proof.
  destruct s as [|a s]; simpl; [done|]. intros [Ha _]%andb_prop.
  by rewrite digit_not_space.
Qed.

Lemma all_digits_trimEnd s : all_digits s = true → trimEnd s = s.
Proof.
  induction s as [|a s IH]; simpl; [done|]. intros [Ha Hs]%andb_prop.
  rewrite IH by done. destruct s; [by rewrite digit_not_space|done].
Qed.

(** X26.  For an order that order creation stored, the detail shows the
    order's own city and pincode, never ones derived from the address; the
    state it shows is the order's own unless that is blank, in which case
    it shows none. *)
Theorem detail_of_created_order user body newId db doc msg db' :
  run (createOrder user body newId) db = (Success (DOrder doc) msg, db') →
  sh_city (detail_shipping doc) = city doc ∧
  sh_pincode (detail_shipping doc) = pincode doc ∧
  sh_state (detail_shipping doc)
    = (if decide (trim (state doc) = "") then "" else state doc) ∧
  sh_address1 (detail_shipping doc) = address doc.
Proof.
  intros H. apply createOrder_success_inv in H as (Hv&->&_).
  remember (new_order user body) as doc eqn:Hdoc. clear Hdoc.
  unfold validates in Hv.
  apply andb_prop in Hv as [Hv Hpin]. apply andb_prop in Hv as [_ Hv].
  apply negb_true_iff, orb_false_iff in Hv as [Hv Hp].
  apply orb_false_iff in Hv as [Hc Hs].
  apply bool_decide_eq_false in Hc, Hs, Hp.
  apply pinOk_spec in Hpin as [_ Hd].
  unfold detail_shipping. cbn [sh_city sh_pincode sh_state sh_address1].
  repeat split.
  - unfold or_empty, or_str. by rewrite !decide_False by done.
  - rewrite (bool_decide_eq_true_2 (pincode doc ≠ "")) by done.
    unfold trim. rewrite all_digits_trimStart, all_digits_trimEnd by done.
    by rewrite bool_decide_eq_true_2 by done.
  - rewrite (bool_decide_eq_true_2 (state doc ≠ "")) by done.
    rewrite andb_true_l.
    destruct (decide (trim (state doc) = "")) as [Ht|Ht].
    + by rewrite bool_decide_eq_false_2 by tauto.
    + by rewrite bool_decide_eq_true_2.
Qed.

Lemma detail_of_created_order_witness :
  sh_city (detail_shipping (new_order None request_A)) = city (new_order None request_A) ∧
  sh_pincode (detail_shipping (new_order None request_A))
    = pincode (new_order None request_A) ∧
  sh_state (detail_shipping (new_order None request_A))
    = (if decide (trim (state (new_order None request_A)) = "") then ""
       else state (new_order None request_A)) ∧
  sh_address1 (detail_shipping (new_order None request_A))
    = address (new_order None request_A).
Proof.
  apply (detail_of_created_order None request_A "o1" shop
           (new_order None request_A) None
           (run (createOrder None request_A "o1") shop).2).
  vm_compute. reflexivity.
Defined.

Lemma substring_all s : String.substring 0 (String.length s) s = s.
Proof. induction s as [|a s IH]; simpl; [done|]. by rewrite IH. Qed.

Lemma substring_prefix u v :
  String.substring 0 (String.length u) (u +:+ v) = u.
Proof.
  induction u as [|a u IH].
  - rewrite string_app_nil_l. by destruct v.
  - rewrite string_app_cons. simpl. by rewrite IH.
Qed.

Lemma substring_suffix u v :
  String.substring (String.length u)
    (String.length (u +:+ v) - String.length u) (u +:+ v) = v.
Proof.
  induction u as [|a u IH].
  - rewrite string_app_nil_l. simpl. rewrite Nat.sub_0_r. apply substring_all.
  - rewrite string_app_cons. simpl. exact IH.
Qed.

Lemma string_last s :
  s ≠ "" → ∃ s' d, s = s' +:+ String d EmptyString.
Proof.
  induction s as [|a s IH]; [done|]. intros _.
  destruct s as [|b s].
  - by exists EmptyString, a.
  - destruct IH as (s'&d&->); [done|]. by exists (String a s'), d.
Qed.

Lemma all_digits_app x y :
  all_digits (x +:+ y) = all_digits x && all_digits y.
Proof.
  induction x as [|a x IH]; [done|]. rewrite string_app_cons. simpl.
  by rewrite IH, andb_assoc.
Qed.

(** A digit further on the line stops the look-ahead. *)
Lemma no_digit_ahead_digit y d z :
  Forall (λ c, is_line_terminator c = false) (String.list_ascii_of_string y) →
  is_digit d = true →
  no_digit_ahead (y +:+ String d z) = false.
Proof.
  induction y as [|a y IH]; intros Hy Hd.
  - rewrite string_app_nil_l. simpl. rewrite Hd.
    by destruct (is_line_terminator d) eqn:E;
      [unfold is_digit, is_line_terminator in *; cbv zeta in *;
       apply andb_prop in Hd as [H1%Nat.leb_le H2%Nat.leb_le];
       apply orb_prop in E as [E%Nat.eqb_eq|E%Nat.eqb_eq]; lia|].
  - rewrite string_app_cons. simpl in *. apply Forall_cons in Hy as [-> Hy].
    destruct (is_digit a); [done|]. by apply IH.
Qed.

Lemma no_digit_ahead_behind L d post n :
  (n ≤ String.length L)%nat →
  Forall (λ c, is_line_terminator c = false) (String.list_ascii_of_string L) →
  is_digit d = true →
  no_digit_ahead
    (String.substring n (String.length (L +:+ String d post) - n)
       (L +:+ String d post)) = false.
Proof.
  revert n. induction L as [|a L IH]; intros n Hn HL Hd.
  - simpl in Hn. assert (n = 0)%nat as -> by lia.
    rewrite string_app_nil_l, Nat.sub_0_r, substring_all.
    by apply (no_digit_ahead_digit EmptyString).
  - destruct n as [|n].
    + rewrite Nat.sub_0_r, substring_all. by apply no_digit_ahead_digit.
    + rewrite string_app_cons. simpl in *. apply Forall_cons in HL as [_ HL].
      apply IH; [lia|done..].
Qed.

Lemma no_digit_ahead_none s :
  Forall (λ c, is_digit c = false) (String.list_ascii_of_string s) →
  no_digit_ahead s = true.
Proof.
  induction s as [|a s IH]; simpl; [done|]. intros [-> Hs]%Forall_cons.
  destruct (is_line_terminator a); [done|]. by apply IH.
Qed.

Lemma list_ascii_app x y :
  String.list_ascii_of_string (x +:+ y)
  = (String.list_ascii_of_string x ++ String.list_ascii_of_string y)%list.
Proof.
  induction x as [|a x IH]; [done|]. rewrite string_app_cons. simpl. by rewrite IH.
Qed.

Lemma find_pin_here s :
  pin_here s = true → find_pin s = Some (String.substring 0 6 s).
Proof. intros H. destruct s; cbn [find_pin]; by rewrite H. Qed.

Lemma find_pin_skip a s :
  pin_here (String a s) = false → find_pin (String a s) = find_pin s.
Proof. intros H. cbn [find_pin]. by rewrite H. Qed.

Lemma find_pin_at_line_end pre pin post :
  String.length pin = 6%nat → all_digits pin = true →
  Forall (λ c, is_digit c = false) (String.list_ascii_of_string post) →
  Forall (λ c, is_line_terminator c = false)
    (String.list_ascii_of_string (pre +:+ pin)) →
  find_pin (pre +:+ pin +:+ post) = Some pin.
Proof.
  intros Hlen Hdig Hpost. induction pre as [|a pre IH]; intros Hline.
  - rewrite string_app_nil_l.
    assert (pin_here (pin +:+ post) = true) as Hhere.
    { unfold pin_here. rewrite <- Hlen at 1 2 3.
      rewrite substring_prefix, Hlen, Hdig. simpl.
      rewrite <- Hlen, substring_suffix. by apply no_digit_ahead_none. }
    rewrite (find_pin_here _ Hhere). f_equal.
    rewrite <- Hlen. apply substring_prefix.
  - rewrite string_app_cons in *. simpl in Hline.
    apply Forall_cons in Hline as [Ha Hline].
    assert (pin_here (String a (pre +:+ pin +:+ post)) = false) as Hno.
    { destruct (string_last pin) as (pin'&d&->); [by destruct pin|].
      rewrite all_digits_app in Hdig. apply andb_prop in Hdig as [_ Hd].
      simpl in Hd. rewrite andb_true_r in Hd.
      rewrite string_length_app in Hlen. simpl in Hlen.
      unfold pin_here. apply andb_false_intro2.
      rewrite <- string_app_cons, !string_app_assoc.
      rewrite <- (string_app_assoc _ (String d EmptyString) post).
      change (String d EmptyString +:+ post) with (String d post).
      apply no_digit_ahead_behind; [|  |done].
      - rewrite string_length_app. simpl. lia.
      - rewrite list_ascii_app in *. simpl.
        rewrite list_ascii_app in Hline.
        apply Forall_app in Hline as [H1 H2].
        apply Forall_app in H2 as [H2 _].
        apply Forall_cons. split; [done|]. by apply Forall_app. }
    rewrite (find_pin_skip _ _ Hno). by apply IH.
Qed.

(** X27.  When the address, up to and including a run of six digits, is on
    one line and no digit follows the run, the derived pincode is that
    run.  (A run of six digits that ends an earlier line would be taken
    instead: the look-ahead of the pattern stops at the end of a line.) *)
Theorem derived_pincode_at_line_end pre pin post :
  String.length pin = 6%nat → all_digits pin = true →
  Forall (λ c, is_digit c = false) (String.list_ascii_of_string post) →
  Forall (λ c, is_line_terminator c = false)
    (String.list_ascii_of_string (pre +:+ pin)) →
  d_pincode (deriveFromAddress (pre +:+ pin +:+ post)) = pin.
Proof.
  intros. unfold deriveFromAddress. cbn [d_pincode].
  by rewrite find_pin_at_line_end.
Qed.

Lemma derived_pincode_at_line_end_witness :
  d_pincode (deriveFromAddress ("12 MG Road, Pune " +:+ "411001" +:+ ", India"))
  = "411001".
Proof.
  apply (derived_pincode_at_line_end "12 MG Road, Pune " "411001" ", India");
    [reflexivity | reflexivity | |];
    repeat (apply Forall_cons; split; [reflexivity|]); apply Forall_nil_2.
Defined.

Example derived_pincode_of_earlier_line :
  deriveFromAddress ("Flat 123456" +:+ String (Ascii.ascii_of_nat 10) "Pune 411001")
  = {| d_city := "Pune"; d_pincode := "123456" |}.
Proof. vm_compute. reflexivity. Qed.

Lemma range_days_cases range :
  range_days range = 7 ∨ range_days range = 30 ∨ range_days range = 90.
Proof. unfold range_days. cbv zeta. repeat case_decide; auto. Qed.

Lemma range_days_eq range :
  range_days range
  = if decide (toLowerCase (or_empty range) = "7d") then 7
    else if decide (toLowerCase (or_empty range) = "90d") then 90 else 30.
Proof.
  unfold range_days, or_empty, or_str, String_of. cbv zeta.
  destruct range as [r|]; [destruct (decide (r = "")) as [->|]|]; done.
Qed.

Lemma isoDate_same_day t1 t2 :
  t1 / msPerDay = t2 / msPerDay → isoDate t1 = isoDate t2.
Proof. unfold isoDate, utcDate. by intros ->. Qed.

Lemma days_from_civil_add y m d k :
  days_from_civil y m (d + k) = days_from_civil y m d + k.
Proof. unfold days_from_civil. cbv zeta. lia. Qed.

Lemma addDays_fixed tz k t : addDays (fixed_zone tz) k t = t + k * msPerDay.
Proof. unfold addDays, fixed_zone. simpl. lia. Qed.

Lemma series_start_eq tz now days :
  series_start (fixed_zone tz) now days
  = (local_day tz now - (days - 1)) * msPerDay - tz * msPerMinute.
Proof.
  unfold series_start. rewrite addDays_fixed.
  unfold setHours0, fixed_zone, local_day. simpl. lia.
Qed.

Lemma fillSeries_turns agg tz end_ n : ∀ fuel cursor,
  (n < fuel)%nat →
  cursor + (Z.of_nat n - 1) * msPerDay ≤ end_ < cursor + Z.of_nat n * msPerDay →
  fillSeries fuel agg (fixed_zone tz) end_ cursor
  = Some ((λ i : nat, series_point agg (cursor + Z.of_nat i * msPerDay)) <$> seq 0 n).
Proof.
  induction n as [|n IH]; intros fuel cursor Hfuel Hend.
  - destruct fuel as [|fuel]; [lia|]. simpl.
    rewrite decide_False by (unfold msPerDay in *; lia). done.
  - destruct fuel as [|fuel]; [lia|]. cbn [fillSeries].
    rewrite decide_True by (unfold msPerDay in *; lia).
    rewrite addDays_fixed, Z.mul_1_l.
    rewrite (IH fuel (cursor + msPerDay)) by (unfold msPerDay in *; lia).
    f_equal. cbn [seq fmap list_fmap]. f_equal; [f_equal; lia|].
    rewrite <- fmap_S_seq, <- list_fmap_compose.
    apply list_fmap_ext. intros _ i _. simpl. f_equal. lia.
Qed.

Lemma overview_series_run fuel tz now range agg :
  (Z.to_nat (range_days range) < fuel)%nat →
  overview_series fuel (fixed_zone tz) now range agg
  = Some ((λ i : nat,
             series_point agg
               (series_start (fixed_zone tz) now (range_days range)
                + Z.of_nat i * msPerDay))
            <$> seq 0 (Z.to_nat (range_days range))).
Proof.
  intros Hfuel. unfold overview_series. apply fillSeries_turns; [done|].
  rewrite series_start_eq. unfold local_day.
  pose proof (range_days_cases range) as Hd.
  rewrite Z2Nat.id by lia.
  unfold msPerDay, msPerMinute. Z.div_mod_to_equations. lia.
Qed.





(** Where the clocks change, the series is another.  On a server in London,
    asked on 27 October 2026 for seven days, the local midnights before
    the end of summer time fall on the evening before in UTC and the later
    ones on the day itself: the series has a point for the 20th to the
    24th, none for the 25th, and one for the 26th and the 27th. *)
Example overview_series_london :
  (λ l : list Point, pt_date <$> l)
    <$> overview_series 8 london_2026
          (days_from_civil 2026 10 27 * msPerDay + 43200000) (Some "7d") []
  = Some ["2026-10-20"; "2026-10-21"; "2026-10-22"; "2026-10-23";
          "2026-10-24"; "2026-10-26"; "2026-10-27"].
Proof. vm_compute. reflexivity. Qed.

(** Where the clocks go forward at local midnight, the cursor is moved to
    01:00 and stays there: a request in the first hour of a later day gets
    one point less than the range has days.  Here the request comes at
    00:30 local time on 26 April 2026 (21:30 UTC on the 25th). *)
Example overview_series_forward_at_midnight :
  (λ l : list Point, pt_date <$> l)
    <$> overview_series 8 forward_at_midnight
          (days_from_civil 2026 4 25 * msPerDay + 77400000) (Some "7d") []
  = Some ["2026-04-19"; "2026-04-20"; "2026-04-21"; "2026-04-22";
          "2026-04-23"; "2026-04-24"].
Proof. vm_compute. reflexivity. Qed.
